(** * EvaluApp front end (app.py): the API client, exam creation, the
      active-exam filter and the assembly of a submission.

    The development embeds [src/app.py] shallowly.  Python values that
    come from the backend are JSON values; a Python [str] is represented
    by its UTF-8 encoding as a Rocq [string], so that the literals of the
    source can be written as they are.  Effects (HTTP requests, Streamlit
    messages, exceptions) are threaded through a state-and-exception
    monad.  Library functions the source calls ([json.loads],
    [str.strip], [str.lower], [int]) are given executable models. *)

From Stdlib Require Import String Ascii List ZArith NArith Bool Lia.
Import ListNotations.
Open Scope string_scope.
Open Scope list_scope.
Open Scope Z_scope.

(* ================================================================== *)
(** ** Python strings *)

Module PyStr.

Definition ord (c : ascii) : N := N_of_ascii c.
Definition chr (n : N) : ascii := ascii_of_N n.

(** [str.isspace] on the code points of one, two and three UTF-8 bytes:
    U+0009..U+000D, U+001C..U+0020; U+0085, U+00A0; U+1680,
    U+2000..U+200A, U+2028, U+2029, U+202F, U+205F, U+3000. *)
Definition is_space1 (a : ascii) : bool :=
  let n := ord a in
  (((9 <=? n) && (n <=? 13)) || ((28 <=? n) && (n <=? 32)))%N.

Definition is_space2 (a b : ascii) : bool :=
  ((ord a =? 194) && ((ord b =? 133) || (ord b =? 160)))%N.

Definition is_space3 (a b c : ascii) : bool :=
  let x := ord a in
  let y := ord b in
  let z := ord c in
  (((x =? 225) && (y =? 154) && (z =? 128))
   || ((x =? 226) && (y =? 128)
       && (((128 <=? z) && (z <=? 138)) || (z =? 168) || (z =? 169) || (z =? 175)))
   || ((x =? 226) && (y =? 129) && (z =? 159))
   || ((x =? 227) && (y =? 128) && (z =? 128)))%N.

(** Drops the white space at the front; [sp2] and [sp3] recognise the
    two- and three-byte white space in the order the bytes are met. *)
Fixpoint lstrip_with (sp2 : ascii -> ascii -> bool)
  (sp3 : ascii -> ascii -> ascii -> bool) (s : string) : string :=
  match s with
  | EmptyString => s
  | String a r1 =>
      if is_space1 a then lstrip_with sp2 sp3 r1
      else
        match r1 with
        | EmptyString => s
        | String b r2 =>
            if sp2 a b then lstrip_with sp2 sp3 r2
            else
              match r2 with
              | EmptyString => s
              | String c r3 =>
                  if sp3 a b c then lstrip_with sp2 sp3 r3 else s
              end
        end
  end.

Definition rev_string (s : string) : string :=
  string_of_list_ascii (rev (list_ascii_of_string s)).

Definition lstrip (s : string) : string := lstrip_with is_space2 is_space3 s.

Definition rstrip (s : string) : string :=
  rev_string
    (lstrip_with (fun a b => is_space2 b a) (fun a b c => is_space3 c b a)
       (rev_string s)).

(** [text.strip()] *)
Definition strip (s : string) : string := rstrip (lstrip s).

(** [s.startswith(c)] and [s.endswith(c)] for a one-character [c]. *)
Definition startswith (c : ascii) (s : string) : bool :=
  match s with
  | String a _ => Ascii.eqb a c
  | EmptyString => false
  end.

Fixpoint endswith (c : ascii) (s : string) : bool :=
  match s with
  | EmptyString => false
  | String a EmptyString => Ascii.eqb a c
  | String _ r => endswith c r
  end.

(** [s.lower()].  Letters outside ASCII are left as they are: a header
    value is Latin-1 text, and lowering such a letter neither makes nor
    breaks an occurrence of an ASCII pattern, which is all [lower] is
    used for. *)
Definition lower_char (a : ascii) : ascii :=
  let n := ord a in
  if ((65 <=? n) && (n <=? 90))%N then chr (n + 32) else a.

Fixpoint lower (s : string) : string :=
  match s with
  | EmptyString => EmptyString
  | String a r => String (lower_char a) (lower r)
  end.

(** [sub in s] *)
Fixpoint contains (sub s : string) : bool :=
  String.prefix sub s
  || match s with
     | EmptyString => false
     | String _ r => contains sub r
     end.

(** [s[:n]]: the first [n] code points.  A continuation byte
    (0x80..0xBF) belongs to the character before it. *)
Definition is_continuation (a : ascii) : bool :=
  let n := ord a in ((128 <=? n) && (n <=? 191))%N.

Fixpoint slice_to (n : nat) (s : string) : string :=
  match s with
  | EmptyString => EmptyString
  | String a r =>
      if is_continuation a then String a (slice_to n r)
      else
        match n with
        | O => EmptyString
        | S m => String a (slice_to m r)
        end
  end.

(** The characters of [s], one string each, as [for c in s] meets them. *)
Fixpoint chars (s : string) : list string :=
  match s with
  | EmptyString => []
  | String a r =>
      let rest := chars r in
      match r, rest with
      | String b _, c :: cs =>
          if is_continuation b then String a c :: cs
          else String a EmptyString :: rest
      | _, _ => String a EmptyString :: rest
      end
  end.

End PyStr.

(* ================================================================== *)
(** ** Python dictionaries: insertion-ordered association lists *)

Section Dict.

Context {K V : Type}.
Variable key_eqb : K -> K -> bool.

(** [d.get(k)] *)
Fixpoint dict_get (k : K) (d : list (K * V)) : option V :=
  match d with
  | [] => None
  | (k', v) :: r => if key_eqb k' k then Some v else dict_get k r
  end.

(** [d[k] = v]: an existing key keeps its place and takes the new value,
    a new key goes to the end. *)
Fixpoint dict_set (k : K) (v : V) (d : list (K * V)) : list (K * V) :=
  match d with
  | [] => [(k, v)]
  | (k', v') :: r =>
      if key_eqb k' k then (k', v) :: r else (k', v') :: dict_set k v r
  end.

Definition dict_keys (d : list (K * V)) : list K := map fst d.

End Dict.

(* ================================================================== *)
(** ** JSON values and [json.loads] *)

(** A float is kept as the decimal it was written as; [to_double]
    below gives the double Python reads it as. *)
Inductive pyfloat : Type :=
| FNaN
| FInf (neg : bool)
| FDec (neg : bool) (mant : N) (exp10 : Z).

#[warnings="-register-all"]
Inductive json : Type :=
| JNull
| JBool (b : bool)
| JInt (z : Z)
| JFloat (f : pyfloat)
| JStr (s : string)
| JArr (l : list json)
| JObj (d : list (string * json)).

Definition sget (k : string) (d : list (string * json)) : option json :=
  dict_get String.eqb k d.

Definition sset (k : string) (v : json) (d : list (string * json)) :
  list (string * json) :=
  dict_set String.eqb k v d.

(** The [float] a decimal is read as: the double nearest to
    [m * 10^e], ties to even, given as [(q, k)] for [q * 2^k]; [None]
    when the decimal is too large for a double, which Python reads as
    infinity. *)
Definition to_double (m : N) (e : Z) : option (Z * Z) :=
  let num := if 0 <=? e then Z.of_N m * 10 ^ e else Z.of_N m in
  let den := if 0 <=? e then 1 else 10 ^ (- e) in
  if num =? 0 then Some (0, 0)
  else
    let lb := Z.log2 num - Z.log2 den in
    let reaches :=
      if 0 <=? lb then den * 2 ^ lb <=? num else den <=? num * 2 ^ (- lb) in
    let fl := if reaches then lb else lb - 1 in
    let k := Z.max (fl - 52) (-1074) in
    let n' := if 0 <=? k then num else num * 2 ^ (- k) in
    let d' := if 0 <=? k then den * 2 ^ k else den in
    let q0 := n' / d' in
    let r := n' mod d' in
    let q :=
      if 2 * r <? d' then q0
      else if d' <? 2 * r then q0 + 1
      else if Z.even q0 then q0 else q0 + 1 in
    if (0 <=? k) && (2 ^ 1024 <=? q * 2 ^ k) then None else Some (q, k).

(** Truth value of a decoded value ([if result:]). *)
Definition truthy (v : json) : bool :=
  match v with
  | JNull => false
  | JBool b => b
  | JInt z => negb (z =? 0)
  | JFloat (FDec _ m e) =>
      match to_double m e with
      | Some (q, _) => negb (q =? 0)
      | None => true
      end
  | JFloat _ => true
  | JStr s => negb (String.eqb s EmptyString)
  | JArr l => match l with [] => false | _ => true end
  | JObj d => match d with [] => false | _ => true end
  end.

(** Nesting depth: a scalar has depth 0, a container one more than the
    deepest of its members. *)
Fixpoint depth (v : json) : nat :=
  match v with
  | JArr l => S (fold_right (fun x m => Nat.max (depth x) m) O l)
  | JObj d => S (fold_right (fun kv m => Nat.max (depth (snd kv)) m) O d)
  | _ => O
  end.

Fixpoint json_eqb (a b : json) : bool :=
  match a, b with
  | JNull, JNull => true
  | JBool x, JBool y => Bool.eqb x y
  | JInt x, JInt y => Z.eqb x y
  | JFloat x, JFloat y =>
      match x, y with
      | FNaN, FNaN => true
      | FInf n1, FInf n2 => Bool.eqb n1 n2
      | FDec n1 m1 e1, FDec n2 m2 e2 =>
          Bool.eqb n1 n2 && N.eqb m1 m2 && Z.eqb e1 e2
      | _, _ => false
      end
  | JStr x, JStr y => String.eqb x y
  | JArr x, JArr y =>
      (fix go (l1 l2 : list json) : bool :=
         match l1, l2 with
         | [], [] => true
         | u :: r1, v :: r2 => json_eqb u v && go r1 r2
         | _, _ => false
         end) x y
  | JObj x, JObj y =>
      (fix go (l1 l2 : list (string * json)) : bool :=
         match l1, l2 with
         | [], [] => true
         | (k1, u) :: r1, (k2, v) :: r2 =>
             String.eqb k1 k2 && json_eqb u v && go r1 r2
         | _, _ => false
         end) x y
  | _, _ => false
  end.

Module JsonLoads.

Import PyStr.

(** *** Lexer *)

Inductive token : Type :=
| TLBrace | TRBrace | TLBrack | TRBrack | TComma | TColon
| TString (s : string)
| TAtom (lexeme : string).

(** What a string literal is made of: a byte of the text, or the 16-bit
    value of a [\uXXXX] escape. *)
Inductive sunit : Type :=
| UByte (a : ascii)
| UEsc (v : N).

Definition utf8 (cp : N) : list ascii :=
  (if cp <? 128 then [chr cp]
   else if cp <? 2048 then [chr (192 + cp / 64); chr (128 + cp mod 64)]
   else if cp <? 65536 then
     [chr (224 + cp / 4096); chr (128 + (cp / 64) mod 64); chr (128 + cp mod 64)]
   else
     [chr (240 + cp / 262144); chr (128 + (cp / 4096) mod 64);
      chr (128 + (cp / 64) mod 64); chr (128 + cp mod 64)])%N.

Definition is_high_surrogate (v : N) : bool := ((55296 <=? v) && (v <=? 56319))%N.
Definition is_low_surrogate (v : N) : bool := ((56320 <=? v) && (v <=? 57343))%N.

(** A high surrogate escape directly followed by a low surrogate escape
    is one code point. *)
Fixpoint units_bytes (us : list sunit) : list ascii :=
  match us with
  | [] => []
  | UByte a :: r => a :: units_bytes r
  | UEsc hi :: r =>
      match r with
      | UEsc lo :: r' =>
          if is_high_surrogate hi && is_low_surrogate lo
          then utf8 (65536 + (hi - 55296) * 1024 + (lo - 56320))%N ++ units_bytes r'
          else utf8 hi ++ units_bytes r
      | _ => utf8 hi ++ units_bytes r
      end
  end.

Definition string_of_units (rev_units : list sunit) : string :=
  string_of_list_ascii (units_bytes (rev rev_units)).

Definition hex_digit (a : ascii) : option N :=
  let n := ord a in
  (if (48 <=? n) && (n <=? 57) then Some (n - 48)
   else if (97 <=? n) && (n <=? 102) then Some (n - 87)
   else if (65 <=? n) && (n <=? 70) then Some (n - 55)
   else None)%N.

(** The character after a backslash, [u] apart. *)
Definition simple_escape (a : ascii) : option ascii :=
  let n := ord a in
  (if n =? 34 then Some (chr 34)
   else if n =? 92 then Some (chr 92)
   else if n =? 47 then Some (chr 47)
   else if n =? 98 then Some (chr 8)
   else if n =? 102 then Some (chr 12)
   else if n =? 110 then Some (chr 10)
   else if n =? 114 then Some (chr 13)
   else if n =? 116 then Some (chr 9)
   else None)%N.

Definition is_json_space (a : ascii) : bool :=
  let n := ord a in ((n =? 32) || (n =? 9) || (n =? 10) || (n =? 13))%N.

Definition structural (a : ascii) : option token :=
  let n := ord a in
  (if n =? 123 then Some TLBrace
   else if n =? 125 then Some TRBrace
   else if n =? 91 then Some TLBrack
   else if n =? 93 then Some TRBrack
   else if n =? 44 then Some TComma
   else if n =? 58 then Some TColon
   else None)%N.

Inductive lstate : Type :=
| LIdle
| LAtom (acc : list ascii)
| LStr (acc : list sunit)
| LEsc (acc : list sunit)
| LHex (acc : list sunit) (k : nat) (v : N).

Definition atom_token (acc : list ascii) : token :=
  TAtom (string_of_list_ascii (rev acc)).

(** One pass over the text; [toks] holds the tokens read so far, last
    first.  [None] is a [JSONDecodeError]. *)
Fixpoint lex (st : lstate) (toks : list token) (s : string) :
  option (list token) :=
  match s with
  | EmptyString =>
      match st with
      | LIdle => Some (rev toks)
      | LAtom acc => Some (rev (atom_token acc :: toks))
      | _ => None
      end
  | String a r =>
      match st with
      | LIdle =>
          if is_json_space a then lex LIdle toks r
          else
            match structural a with
            | Some t => lex LIdle (t :: toks) r
            | None =>
                if (ord a =? 34)%N then lex (LStr []) toks r
                else lex (LAtom [a]) toks r
            end
      | LAtom acc =>
          if is_json_space a then lex LIdle (atom_token acc :: toks) r
          else
            match structural a with
            | Some t => lex LIdle (t :: atom_token acc :: toks) r
            | None =>
                if (ord a =? 34)%N then lex (LStr []) (atom_token acc :: toks) r
                else lex (LAtom (a :: acc)) toks r
            end
      | LStr acc =>
          if (ord a =? 34)%N then lex LIdle (TString (string_of_units acc) :: toks) r
          else if (ord a =? 92)%N then lex (LEsc acc) toks r
          else if (ord a <? 32)%N then None
          else lex (LStr (UByte a :: acc)) toks r
      | LEsc acc =>
          if (ord a =? 117)%N then lex (LHex acc O 0%N) toks r
          else
            match simple_escape a with
            | Some b => lex (LStr (UByte b :: acc)) toks r
            | None => None
            end
      | LHex acc k v =>
          match hex_digit a with
          | None => None
          | Some d =>
              let v' := (16 * v + d)%N in
              match k with
              | S (S (S _)) => lex (LStr (UEsc v' :: acc)) toks r
              | _ => lex (LHex acc (S k) v') toks r
              end
          end
      end
  end.

(** *** Atoms: the literals and the numbers *)

Definition is_digit (a : ascii) : bool :=
  let n := ord a in ((48 <=? n) && (n <=? 57))%N.

(** The digits at the front of [s]: their value after [acc], how many
    there are, and the rest. *)
Fixpoint span_digits (acc : N) (count : nat) (s : string) : N * nat * string :=
  match s with
  | String a r =>
      if is_digit a then span_digits (10 * acc + (ord a - 48))%N (S count) r
      else (acc, count, s)
  | EmptyString => (acc, count, s)
  end.

Definition signed (neg : bool) (n : N) : Z :=
  if neg then (- Z.of_N n) else Z.of_N n.

(** The exponent part ([e] or [E], an optional sign, digits) followed by
    the end of the atom. *)
Definition exponent (s : string) : option Z :=
  match s with
  | String e r =>
      if ((ord e =? 101) || (ord e =? 69))%N then
        let '(neg, r1) :=
          match r with
          | String sg r' =>
              if (ord sg =? 45)%N then (true, r')
              else if (ord sg =? 43)%N then (false, r')
              else (false, r)
          | EmptyString => (false, r)
          end in
        match span_digits 0%N O r1 with
        | (_, O, _) => None
        | (v, _, EmptyString) => Some (signed neg v)
        | _ => None
        end
      else None
  | EmptyString => None
  end.

(** A number: an optional minus sign, an integer part with no leading
    zero, an optional fraction and an optional exponent, over the whole
    atom.  Without fraction and exponent it is an [int]. *)
Definition number (s : string) : option json :=
  let '(neg, s1) :=
    match s with
    | String a r => if (ord a =? 45)%N then (true, r) else (false, s)
    | EmptyString => (false, s)
    end in
  let leading_zero :=
    match s1 with
    | String a _ => (ord a =? 48)%N
    | EmptyString => false
    end in
  match span_digits 0%N O s1 with
  | (_, O, _) => None
  | (ip, n, rest) =>
      if leading_zero && negb (Nat.eqb n 1) then None
      else
        match rest with
        | EmptyString => Some (JInt (signed neg ip))
        | String c r =>
            if (ord c =? 46)%N then
              match span_digits ip O r with
              | (_, O, _) => None
              | (m, fd, EmptyString) =>
                  Some (JFloat (FDec neg m (- Z.of_nat fd)))
              | (m, fd, rest') =>
                  match exponent rest' with
                  | Some e => Some (JFloat (FDec neg m (e - Z.of_nat fd)))
                  | None => None
                  end
              end
            else
              match exponent rest with
              | Some e => Some (JFloat (FDec neg ip e))
              | None => None
              end
        end
  end.

Definition atom (s : string) : option json :=
  if String.eqb s "null" then Some JNull
  else if String.eqb s "true" then Some (JBool true)
  else if String.eqb s "false" then Some (JBool false)
  else if String.eqb s "NaN" then Some (JFloat FNaN)
  else if String.eqb s "Infinity" then Some (JFloat (FInf false))
  else if String.eqb s "-Infinity" then Some (JFloat (FInf true))
  else number s.

(** *** Parser: a stack of the containers that are still open *)

Inductive frame : Type :=
| FArr (rev_items : list json)
| FObj (members : list (string * json)) (pending : option string).

Inductive pstate : Type :=
| PValue        (* a value must follow *)
| PValueOrEnd   (* just after an opening square bracket *)
| PKeyOrEnd     (* just after an opening brace *)
| PKey          (* after a comma inside an object *)
| PColon        (* after a key *)
| PAfter        (* after a value inside a container *)
| PDone (v : json).

Definition push_value (v : json) (stack : list frame) :
  option (pstate * list frame) :=
  match stack with
  | [] => Some (PDone v, [])
  | FArr items :: st => Some (PAfter, FArr (v :: items) :: st)
  | FObj members (Some k) :: st => Some (PAfter, FObj (sset k v members) None :: st)
  | FObj _ None :: _ => None
  end.

Definition expects_value (p : pstate) : bool :=
  match p with
  | PValue | PValueOrEnd => true
  | _ => false
  end.

Definition pstep (p : pstate) (stack : list frame) (t : token) :
  option (pstate * list frame) :=
  match t with
  | TString s =>
      match p with
      | PValue | PValueOrEnd => push_value (JStr s) stack
      | PKeyOrEnd | PKey =>
          match stack with
          | FObj members None :: st => Some (PColon, FObj members (Some s) :: st)
          | _ => None
          end
      | _ => None
      end
  | TAtom a =>
      if expects_value p then
        match atom a with
        | Some v => push_value v stack
        | None => None
        end
      else None
  | TLBrack =>
      if expects_value p then Some (PValueOrEnd, FArr [] :: stack) else None
  | TLBrace =>
      if expects_value p then Some (PKeyOrEnd, FObj [] None :: stack) else None
  | TRBrack =>
      match p, stack with
      | PValueOrEnd, FArr items :: st
      | PAfter, FArr items :: st => push_value (JArr (rev items)) st
      | _, _ => None
      end
  | TRBrace =>
      match p, stack with
      | PKeyOrEnd, FObj members None :: st
      | PAfter, FObj members None :: st => push_value (JObj members) st
      | _, _ => None
      end
  | TComma =>
      match p, stack with
      | PAfter, FArr _ :: _ => Some (PValue, stack)
      | PAfter, FObj _ None :: _ => Some (PKey, stack)
      | _, _ => None
      end
  | TColon =>
      match p with
      | PColon => Some (PValue, stack)
      | _ => None
      end
  end.

Fixpoint parse (p : pstate) (stack : list frame) (toks : list token) :
  option json :=
  match toks with
  | [] => match p with PDone v => Some v | _ => None end
  | t :: r =>
      match pstep p stack t with
      | Some (p', stack') => parse p' stack' r
      | None => None
      end
  end.

(** [json.loads(text)]; [None] stands for [json.JSONDecodeError].  The
    model is of the decoder within the limits of the interpreter: on a
    text nested about a thousand deep Python raises [RecursionError],
    and on an integer of more than 4300 digits a plain [ValueError];
    the model has neither limit. *)
Definition json_loads (text : string) : option json :=
  match lex LIdle [] text with
  | Some toks => parse PValue [] toks
  | None => None
  end.

End JsonLoads.

(* ================================================================== *)
(** ** Exceptions, Streamlit calls and the world the script runs in *)

Inductive PyExc : Type :=
| RequestException (msg : string)            (* raised by [requests.request] *)
| HTTPError (status : Z) (reason url : string) (* raised by [raise_for_status] *)
| JSONDecodeError (doc : string)
| ValueError (msg : string)
| KeyError (key : string)
| TypeError
| AttributeError (attr : string)
| OverflowError
| StopIteration
| RerunException.                            (* raised by [st.rerun] *)

(** [except requests.exceptions.RequestException] *)
Definition is_RequestException (e : PyExc) : bool :=
  match e with
  | RequestException _ | HTTPError _ _ _ => true
  | _ => false
  end.

(** [except (ValueError, json.JSONDecodeError)] *)
Definition is_ValueError (e : PyExc) : bool :=
  match e with
  | ValueError _ | JSONDecodeError _ => true
  | _ => false
  end.

(** [except Exception]: everything but the script-control exception. *)
Definition is_Exception (e : PyExc) : bool :=
  match e with
  | RerunException => false
  | _ => true
  end.

Inductive result (A : Type) : Type :=
| Ok (a : A)
| Raise (e : PyExc).

Arguments Ok {A} a.
Arguments Raise {A} e.

(** The pieces of an f-string: its text and the values put into it. *)
Inductive fpart : Type :=
| FLit (s : string)
| FStr (s : string)
| FVal (v : json)
| FExc (e : PyExc).

Inductive st_call : Type :=
| st_error (msg : list fpart)
| st_success (msg : list fpart)
| st_write (msg : list fpart)
| st_json (v : json).

Record Request : Type := {
  req_method : string;
  req_url : string;
  req_headers : option (list (string * string));
  req_json : option json;
  req_params : option json
}.

Record Response : Type := {
  status_code : Z;
  reason : string;
  resp_url : string;
  content_type : option string;   (* the [content-type] header, if any *)
  text : string
}.

(** What the network does with a request: [requests.request] raises a
    [RequestException] (connection refused, timeout, DNS failure) or
    returns a response. *)
Inductive NetOutcome : Type :=
| NetRaise (msg : string)
| NetResponse (r : Response).

(** The names [app.py] imports from [api_routes] and reads from the
    environment, and the backend, whose answer may depend on the requests
    that came before. *)
Record Env : Type := {
  build_url : string -> string;
  ENDPOINTS : string -> string;
  API_BASE_URL : string;
  TOKEN : string;
  network : list Request -> Request -> NetOutcome
}.

Record World : Type := {
  sent : list Request;   (* the requests issued so far, oldest first *)
  ui : list st_call      (* the Streamlit calls made so far, oldest first *)
}.

Definition M (A : Type) : Type := World -> result A * World.

Definition ret {A : Type} (a : A) : M A := fun w => (Ok a, w).

Definition raise {A : Type} (e : PyExc) : M A := fun w => (Raise e, w).

Definition bind {A B : Type} (c : M A) (k : A -> M B) : M B :=
  fun w =>
    match c w with
    | (Ok a, w') => k a w'
    | (Raise e, w') => (Raise e, w')
    end.

Notation "x <- c ;; k" := (bind c (fun x => k))
  (at level 61, c at next level, right associativity).
Notation "c ;; k" := (bind c (fun _ => k))
  (at level 61, right associativity).

Definition lift {A : Type} (r : result A) : M A := fun w => (r, w).

(** [try: body except <class> as e: handler e] *)
Definition try_except {A : Type} (body : M A) (catches : PyExc -> bool)
  (handler : PyExc -> M A) : M A :=
  fun w =>
    match body w with
    | (Ok a, w') => (Ok a, w')
    | (Raise e, w') => if catches e then handler e w' else (Raise e, w')
    end.

Definition st (c : st_call) : M unit :=
  fun w => (Ok tt, {| sent := sent w; ui := ui w ++ [c] |}).

(** [st.rerun()] stops the script. *)
Definition st_rerun : M unit := raise RerunException.

Fixpoint for_each {A : Type} (l : list A) (body : A -> M unit) : M unit :=
  match l with
  | [] => ret tt
  | x :: r => body x ;; for_each r body
  end.

(** Sequencing of computations that only compute. *)
Definition rbind {A B : Type} (r : result A) (k : A -> result B) : result B :=
  match r with
  | Ok a => k a
  | Raise e => Raise e
  end.

Fixpoint rfold {A B : Type} (f : B -> A -> result B) (l : list A) (acc : B) :
  result B :=
  match l with
  | [] => Ok acc
  | x :: r => rbind (f acc x) (rfold f r)
  end.

Fixpoint rmap {A B : Type} (f : A -> result B) (l : list A) : result (list B) :=
  match l with
  | [] => Ok []
  | x :: r => rbind (f x) (fun y => rbind (rmap f r) (fun ys => Ok (y :: ys)))
  end.

(* ================================================================== *)
(** ** Operations on decoded values *)

(** [v[k]] for a string [k] *)
Definition getitem (v : json) (k : string) : result json :=
  match v with
  | JObj d =>
      match sget k d with
      | Some x => Ok x
      | None => Raise (KeyError k)
      end
  | _ => Raise TypeError
  end.

(** [v.get(k, default)] *)
Definition get_default (v : json) (k : string) (default : json) : result json :=
  match v with
  | JObj d =>
      match sget k d with
      | Some x => Ok x
      | None => Ok default
      end
  | _ => Raise (AttributeError "get")
  end.

(** [v == s] for a [str] [s] *)
Definition eq_str (v : json) (s : string) : bool :=
  match v with
  | JStr x => String.eqb x s
  | _ => false
  end.

(** The values met by [for x in v]. *)
Definition iter (v : json) : result (list json) :=
  match v with
  | JArr l => Ok l
  | JObj d => Ok (map (fun kv => JStr (fst kv)) d)
  | JStr s => Ok (map JStr (PyStr.chars s))
  | _ => Raise TypeError
  end.

(** Whether a value can be the key of a [dict]. *)
Definition hashable (v : json) : bool :=
  match v with
  | JArr _ | JObj _ => false
  | _ => true
  end.

(** What a [dict] compares of a key.  Python takes [1], [1.0] and
    [True] for one key: a number is compared by its value, here
    [q * 2^k] with [q] odd (or [0]).  A NaN is equal to no key but the
    very same object, and the values met here are decoded afresh on
    each run of the script. *)
Inductive pykey : Type :=
| KNone
| KNum (q : Z) (k : Z)
| KInf (neg : bool)
| KStr (s : string).

Fixpoint strip_twos (p : positive) (k : Z) : positive * Z :=
  match p with
  | xO p' => strip_twos p' (k + 1)
  | _ => (p, k)
  end.

Definition dyadic (q k : Z) : pykey :=
  match q with
  | Z0 => KNum 0 0
  | Zpos p => let '(p', k') := strip_twos p k in KNum (Zpos p') k'
  | Zneg p => let '(p', k') := strip_twos p k in KNum (Zneg p') k'
  end.

Definition key_of (v : json) : option pykey :=
  match v with
  | JNull => Some KNone
  | JBool b => Some (KNum (if b then 1 else 0) 0)
  | JInt z => Some (dyadic z 0)
  | JFloat FNaN => None
  | JFloat (FInf neg) => Some (KInf neg)
  | JFloat (FDec neg m e) =>
      match to_double m e with
      | Some (q, k) => Some (dyadic (if neg then - q else q) k)
      | None => Some (KInf neg)
      end
  | JStr s => Some (KStr s)
  | JArr _ | JObj _ => None
  end.

Definition pykey_eqb (x y : pykey) : bool :=
  match x, y with
  | KNone, KNone => true
  | KNum q1 k1, KNum q2 k2 => (q1 =? q2) && (k1 =? k2)
  | KInf n1, KInf n2 => Bool.eqb n1 n2
  | KStr s1, KStr s2 => String.eqb s1 s2
  | _, _ => false
  end.

(** [a == b] for two keys of a [dict] (with equal hashes). *)
Definition py_key_eqb (a b : json) : bool :=
  match key_of a, key_of b with
  | Some x, Some y => pykey_eqb x y
  | _, _ => false
  end.

(** [int(s)] for a [str]: white space around, a sign, and digits with
    single underscores between them.  Digits outside ASCII, which
    Python also takes, are not modelled. *)
Fixpoint int_digits (acc : N) (after_digit : bool) (s : string) : option N :=
  match s with
  | EmptyString => if after_digit then Some acc else None
  | String a r =>
      if JsonLoads.is_digit a
      then int_digits (10 * acc + (PyStr.ord a - 48))%N true r
      else if (PyStr.ord a =? 95)%N && after_digit then int_digits acc false r
      else None
  end.

Definition int_of_str (s : string) : option Z :=
  match PyStr.strip s with
  | EmptyString => None
  | String a r as body =>
      if (PyStr.ord a =? 45)%N then option_map (fun n => - Z.of_N n) (int_digits 0%N false r)
      else if (PyStr.ord a =? 43)%N then option_map Z.of_N (int_digits 0%N false r)
      else option_map Z.of_N (int_digits 0%N false body)
  end.

(** [int(v)] *)
Definition py_int (v : json) : result Z :=
  match v with
  | JInt z => Ok z
  | JBool b => Ok (if b then 1 else 0)
  | JFloat FNaN => Raise (ValueError "cannot convert float NaN to integer")
  | JFloat (FInf _) => Raise OverflowError
  | JFloat (FDec neg m e) =>
      match to_double m e with
      | Some (q, k) =>
          let magnitude := if 0 <=? k then q * 2 ^ k else q / 2 ^ (- k) in
          Ok (if neg then - magnitude else magnitude)
      | None => Raise OverflowError
      end
  | JStr s =>
      match int_of_str s with
      | Some z => Ok z
      | None => Raise (ValueError "invalid literal for int() with base 10")
      end
  | JNull | JArr _ | JObj _ => Raise TypeError
  end.

(* ================================================================== *)
(** ** The API client: [make_request] *)

Definition max_depth : Z := 100.

(** [decode_json], the function [make_request] defines and calls once,
    with [depth] left at its default 0.  The body never calls itself. *)
Definition decode_json (text : string) (depth : Z) : result json :=
  if depth >? max_depth
  then Raise (ValueError "Límite de recursión alcanzado (máximo 100)")
  else
    match JsonLoads.json_loads text with
    | Some v => Ok v
    | None =>
        let cleaned_text := PyStr.strip text in
        if PyStr.startswith "[" cleaned_text && PyStr.endswith "]" cleaned_text
        then
          match JsonLoads.json_loads cleaned_text with
          | Some v => Ok v
          | None => Raise (JSONDecodeError cleaned_text)
          end
        else if PyStr.startswith "{" cleaned_text && PyStr.endswith "}" cleaned_text
        then
          match JsonLoads.json_loads cleaned_text with
          | Some v => Ok v
          | None => Raise (JSONDecodeError cleaned_text)
          end
        else Raise (JSONDecodeError text)
    end.

Section Client.

Variable env : Env.

(** [requests.request(method, url, headers=headers, json=data, params=params)] *)
Definition requests_request (method url : string)
  (headers : option (list (string * string))) (data params : option json) :
  M Response :=
  fun w =>
    let req := {| req_method := method; req_url := url; req_headers := headers;
                  req_json := data; req_params := params |} in
    let w' := {| sent := sent w ++ [req]; ui := ui w |} in
    match network env (sent w) req with
    | NetRaise msg => (Raise (RequestException msg), w')
    | NetResponse r => (Ok r, w')
    end.

(** [response.raise_for_status()]: a 4xx or a 5xx status raises. *)
Definition raise_for_status (r : Response) : M unit :=
  if (400 <=? status_code r) && (status_code r <? 600)
  then raise (HTTPError (status_code r) (reason r) (resp_url r))
  else ret tt.

Definition get_headers : list (string * string) :=
  [("Authorization", "Bearer " ++ TOKEN env)%string].

Definition make_request (method endpoint : string)
  (headers : option (list (string * string))) (data params : option json) :
  M json :=
  let url := build_url env endpoint in
  try_except
    (response <- requests_request method url headers data params ;;
     raise_for_status response ;;
     let content_type :=
       match content_type response with
       | Some c => c
       | None => EmptyString
       end in
     if PyStr.contains "application/json" (PyStr.lower content_type)
     then
       try_except
         (let text := text response in
          if String.eqb text EmptyString then ret (JArr [])
          else lift (decode_json text 0))
         is_ValueError
         (fun e =>
            st (st_error [FLit "❌ Error al procesar la respuesta de la API: "; FExc e]) ;;
            st (st_error [FLit "Datos recibidos (primeros 500 caracteres): ";
                          FStr (PyStr.slice_to 500 (text response)); FLit "..."]) ;;
            st (st_error [FLit "Tipo de contenido: "; FStr content_type]) ;;
            st (st_error [FLit "URL de la API: "; FStr url]) ;;
            ret JNull)
     else
       st (st_error [FLit "❌ La API no devolvió JSON válido. Tipo de contenido: ";
                     FStr content_type]) ;;
       st (st_error [FLit "Datos recibidos (primeros 500 caracteres): ";
                     FStr (PyStr.slice_to 500 (text response)); FLit "..."]) ;;
       st (st_error [FLit "URL de la API: "; FStr url]) ;;
       ret JNull)
    is_RequestException
    (fun e =>
       st (st_error [FLit "❌ Error en la conexión con la API: "; FExc e]) ;;
       st (st_error [FLit "URL de la API: "; FStr url]) ;;
       ret JNull).

End Client.

(* ================================================================== *)
(** ** Dates *)

(** A [datetime.date]; Python orders dates as the triples
    [(year, month, day)]. *)
Record date : Type := { year : Z; month : Z; day : Z }.

Definition date_cmp (a b : date) : comparison :=
  match year a ?= year b with
  | Eq =>
      match month a ?= month b with
      | Eq => day a ?= day b
      | c => c
      end
  | c => c
  end.

(** [a <= b] and [a >= b] *)
Definition date_le (a b : date) : bool :=
  match date_cmp a b with Gt => false | _ => true end.

Definition date_ge (a b : date) : bool :=
  match date_cmp a b with Lt => false | _ => true end.

Definition digit (n : Z) : ascii := PyStr.chr (Z.to_N (48 + n mod 10)).

Definition pad2 (n : Z) : string :=
  String (digit (n / 10)) (String (digit n) EmptyString).

Definition pad4 (n : Z) : string :=
  String (digit (n / 1000)) (String (digit (n / 100)) (pad2 n)).

(** [d.isoformat()] *)
Definition isoformat (d : date) : string :=
  (pad4 (year d) ++ "-" ++ pad2 (month d) ++ "-" ++ pad2 (day d))%string.

(* ================================================================== *)
(** ** Exam creation: [ExamenRequestDTO] and [crear_examen] *)

Record ExamenRequestDTO : Type := {
  titulo : string;
  descripcion : string;
  fechaInicio : date;
  fechaFin : date;
  creadorId : Z;
  preguntasIds : list Z
}.

Definition to_dict (dto : ExamenRequestDTO) : json :=
  JObj [("titulo", JStr (titulo dto));
        ("descripcion", JStr (descripcion dto));
        ("fechaInicio", JStr (isoformat (fechaInicio dto)));
        ("fechaFin", JStr (isoformat (fechaFin dto)));
        ("creadorId", JInt (creadorId dto));
        ("preguntasIds", JArr (map JInt (preguntasIds dto)))].

(** A question as the form collects it. *)
Record OpcionForm : Type := { opcion_texto : string; esCorrecta : bool }.

Record PreguntaForm : Type := {
  textoPregunta : string;
  tipoPregunta : string;
  opciones : list OpcionForm;
  puntos : Z
}.

Section Creacion.

Variable env : Env.

(** The body sent for one question; the options are left out. *)
Definition pregunta_payload (examen_id : json) (pregunta : PreguntaForm) : json :=
  JObj [("textoPregunta", JStr (textoPregunta pregunta));
        ("tipoPregunta", JStr (tipoPregunta pregunta));
        ("examenId", examen_id);
        ("puntos", JInt (puntos pregunta))].

(** One turn of the loop over [preguntas]. *)
Definition enviar_pregunta (examen_id : json) (pregunta : PreguntaForm) : M unit :=
  let payload := pregunta_payload examen_id pregunta in
  try_except
    (pregunta_result <-
       make_request env "POST" (ENDPOINTS env "preguntas")
         (Some (get_headers env)) (Some payload) None ;;
     if truthy pregunta_result
     then st (st_success [FLit "✅ Pregunta agregada: "; FStr (textoPregunta pregunta)])
     else st (st_error [FLit "❌ Error al crear la pregunta: "; FStr (textoPregunta pregunta)]))
    is_Exception
    (fun e =>
       st (st_error [FLit "⚠️ Error inesperado al crear la pregunta: "; FExc e]) ;;
       st (st_write [FLit "Detalles del error:"]) ;;
       st (st_write [FExc e])).

(** [crear_examen] once the form is there: [submitted] is what
    [st.form_submit_button("Crear Examen")] returns. *)
Definition crear_examen (submitted : bool) (titulo descripcion : string)
  (fecha_inicio fecha_fin : date) (preguntas : list PreguntaForm) : M unit :=
  if submitted then
    if String.eqb titulo EmptyString then
      st (st_error [FLit "El título es obligatorio"])
    else if date_ge fecha_inicio fecha_fin then
      st (st_error [FLit "La fecha de inicio debe ser anterior a la de fin"])
    else
      let creador_id := 1 in
      let examen_sin_preguntas :=
        {| titulo := titulo; descripcion := descripcion;
           fechaInicio := fecha_inicio; fechaFin := fecha_fin;
           creadorId := creador_id; preguntasIds := [] |} in
      result <-
        make_request env "POST" (ENDPOINTS env "examenes")
          (Some (get_headers env)) (Some (to_dict examen_sin_preguntas)) None ;;
      try_except
        (if truthy result then
           examen_id <- lift (get_default result "id" JNull) ;;
           st (st_success [FLit "✅ Examen creado con éxito. ID: "; FVal examen_id]) ;;
           for_each preguntas (enviar_pregunta examen_id)
         else st (st_error [FLit "❌ Error al crear el examen"]))
        is_Exception
        (fun e =>
           st (st_error [FLit "⚠️ Error inesperado: "; FExc e]) ;;
           st (st_write [FLit "Detalles del error:"]) ;;
           st (st_write [FExc e]) ;;
           if truthy result then
             st (st_success [FLit "✅ Examen creado con éxito"]) ;;
             st (st_json result) ;;
             st_rerun
           else
             st (st_error [FLit "❌ Error al crear el examen"]) ;;
             st (st_write [FLit "Respuesta del backend:"]) ;;
             st (st_json result))
  else ret tt.

End Creacion.

(* ================================================================== *)
(** ** Taking an exam: the active exams *)

(** A row of [df_examenes]: the dates as [pd.to_datetime(...).dt.date]
    gives them, the cell of [preguntasIds] as it was decoded. *)
Record Examen : Type := {
  ex_id : Z;
  ex_titulo : string;
  ex_fechaInicio : date;
  ex_fechaFin : date;
  ex_preguntasIds : json
}.

(** [isinstance(x, list) and len(x) > 0] *)
Definition tiene_preguntas (x : json) : bool :=
  match x with
  | JArr l => (0 <? Z.of_nat (length l))
  | _ => false
  end.

(** The two filters that give [examenes_activos]. *)
Definition examenes_activos (hoy : date) (df_examenes : list Examen) : list Examen :=
  let en_fecha :=
    filter (fun e => date_le (ex_fechaInicio e) hoy && date_ge (ex_fechaFin e) hoy)
      df_examenes in
  filter (fun e => tiene_preguntas (ex_preguntasIds e)) en_fecha.

(** Whether one exam passes both filters. *)
Definition is_active (e : Examen) (hoy : date) : bool :=
  match examenes_activos hoy [e] with
  | [] => false
  | _ => true
  end.

(* ================================================================== *)
(** ** Taking an exam: the answers and the submission *)

(** An entry of [st.session_state.respuestas]. *)
Record Respuesta : Type := { tipo : string; respuesta : string }.

Definition Respuestas : Type := list (json * Respuesta).

(** [st.session_state.respuestas[pregunta_id] = r] *)
Definition record_answer (pregunta_id : json) (r : Respuesta)
  (respuestas : Respuestas) : result Respuestas :=
  if hashable pregunta_id
  then Ok (dict_set py_key_eqb pregunta_id r respuestas)
  else Raise TypeError.

(** The body of the loop that shows the questions.  [entrada] is what
    the widget of the question returns: the text typed in
    [st.text_area].  The call of [st.radio] passes the labels as
    [opciones=], a parameter the function does not have: once the
    labels are evaluated the call raises [TypeError], and nothing is
    recorded for a question of type [SELECCION_UNICA]. *)
Definition mostrar_pregunta (entrada : json -> option string)
  (respuestas : Respuestas) (pregunta : json) : result Respuestas :=
  rbind (getitem pregunta "id") (fun pregunta_id =>
  rbind (getitem pregunta "textoPregunta") (fun _ =>
  rbind (get_default pregunta "opciones" (JArr [])) (fun opciones =>
  rbind (get_default pregunta "tipo" JNull) (fun tipo_pregunta =>
    if eq_str tipo_pregunta "SELECCION_UNICA" then
      rbind (iter opciones) (fun opts =>
      rbind (rmap (fun opt => getitem opt "textoPregunta") opts) (fun _ =>
        Raise TypeError))
    else if eq_str tipo_pregunta "TEXTO_ABIERTO" then
      match entrada pregunta_id with
      | Some (String _ _ as r) =>
          record_answer pregunta_id
            {| tipo := "TEXTO_ABIERTO"; respuesta := r |} respuestas
      | _ => Ok respuestas
      end
    else Ok respuestas)))).

Definition mostrar_preguntas (entrada : json -> option string)
  (preguntas : list json) (respuestas : Respuestas) : result Respuestas :=
  rfold (mostrar_pregunta entrada) preguntas respuestas.

(** The payload of a submission.  [respuestasTexto] is a key that is
    set or not; when set it holds one record. *)
Record Payload : Type := {
  examenId : Z;
  opcionesSeleccionadas : list Z;
  respuestasTexto : option (Z * string)
}.

Definition payload_json (p : Payload) : json :=
  JObj ([("examenId", JInt (examenId p));
         ("opcionesSeleccionadas", JArr (map JInt (opcionesSeleccionadas p)))]
        ++ match respuestasTexto p with
           | Some (pregunta_id, r) =>
               [("respuestasTexto",
                 JObj [("preguntaId", JInt pregunta_id); ("respuesta", JStr r)])]
           | None => []
           end).

(** [next(int(opt['id']) for opt in preguntas if opt['texto'] == label)] *)
Fixpoint next_opcion (label : string) (candidatos : list json) : result Z :=
  match candidatos with
  | [] => Raise StopIteration
  | opt :: r =>
      rbind (getitem opt "texto") (fun texto =>
        if eq_str texto label
        then rbind (getitem opt "id") py_int
        else next_opcion label r)
  end.

(** One turn of the loop over [respuestas.items()]. *)
Definition procesar_respuesta (preguntas : list json) (payload : Payload)
  (item : json * Respuesta) : result Payload :=
  let '(pregunta_id, r) := item in
  if String.eqb (tipo r) "SELECCION_UNICA" then
    rbind (next_opcion (respuesta r) preguntas) (fun opcion_id =>
      Ok {| examenId := examenId payload;
            opcionesSeleccionadas := opcionesSeleccionadas payload ++ [opcion_id];
            respuestasTexto := respuestasTexto payload |})
  else if String.eqb (tipo r) "TEXTO_ABIERTO" then
    rbind (py_int pregunta_id) (fun pid =>
      Ok {| examenId := examenId payload;
            opcionesSeleccionadas := opcionesSeleccionadas payload;
            respuestasTexto := Some (pid, respuesta r) |})
  else Ok payload.

(** The payload built when [Enviar examen] is pressed. *)
Definition build_submission (examen_id : Z) (respuestas : Respuestas)
  (preguntas : list json) : result Payload :=
  rfold (procesar_respuesta preguntas) respuestas
    {| examenId := examen_id; opcionesSeleccionadas := []; respuestasTexto := None |}.

Section Envio.

Variable env : Env.

(** What the button [Enviar examen] does. *)
Definition enviar_examen (examen_id : Z) (respuestas : Respuestas)
  (preguntas : list json) : M unit :=
  try_except
    (payload <- lift (build_submission examen_id respuestas preguntas) ;;
     response <-
       requests_request env "POST"
         (API_BASE_URL env ++ "/" ++ ENDPOINTS env "results")%string
         (Some (get_headers env)) (Some (payload_json payload)) None ;;
     if status_code response =? 201 then
       st (st_success [FLit "✅ Examen enviado con éxito!"]) ;;
       st (st_write [FLit "Puedes ver tus resultados en la sección de Resultados"]) ;;
       st_rerun
     else
       st (st_error [FLit "❌ Error al enviar el examen. Código: ";
                     FVal (JInt (status_code response))]) ;;
       st (st_write [FLit "Respuesta del servidor:"]) ;;
       st (st_write [FStr (text response)]))
    is_Exception
    (fun e => st (st_error [FLit "❌ Error al enviar el examen: "; FExc e])).

End Envio.

(* ================================================================== *)
(** ** Vocabulary of the statements *)

Definition mk_request (method url : string)
  (headers : option (list (string * string))) (data params : option json) :
  Request :=
  {| req_method := method; req_url := url; req_headers := headers;
     req_json := data; req_params := params |}.

Definition add_sent (w : World) (r : Request) : World :=
  {| sent := sent w ++ [r]; ui := ui w |}.

Definition add_ui (w : World) (calls : list st_call) : World :=
  {| sent := sent w; ui := ui w ++ calls |}.

(** The header as [response.headers.get('content-type', '')] reads it. *)
Definition header_or_empty (r : Response) : string :=
  match content_type r with
  | Some c => c
  | None => EmptyString
  end.

(** The response is taken for JSON. *)
Definition says_json (r : Response) : bool :=
  PyStr.contains "application/json" (PyStr.lower (header_or_empty r)).

(** [raise_for_status] raises on this status. *)
Definition error_status (status : Z) : bool :=
  (400 <=? status) && (status <? 600).

(** What the user is shown when the request raised [e]. *)
Definition connection_report (e : PyExc) (url : string) : list st_call :=
  [st_error [FLit "❌ Error en la conexión con la API: "; FExc e];
   st_error [FLit "URL de la API: "; FStr url]].

(** What the user is shown when decoding raised [e]. *)
Definition decode_report (e : PyExc) (r : Response) (url : string) : list st_call :=
  [st_error [FLit "❌ Error al procesar la respuesta de la API: "; FExc e];
   st_error [FLit "Datos recibidos (primeros 500 caracteres): ";
             FStr (PyStr.slice_to 500 (text r)); FLit "..."];
   st_error [FLit "Tipo de contenido: "; FStr (header_or_empty r)];
   st_error [FLit "URL de la API: "; FStr url]].

(** What the user is shown when the response is not taken for JSON. *)
Definition content_type_report (r : Response) (url : string) : list st_call :=
  [st_error [FLit "❌ La API no devolvió JSON válido. Tipo de contenido: ";
             FStr (header_or_empty r)];
   st_error [FLit "Datos recibidos (primeros 500 caracteres): ";
             FStr (PyStr.slice_to 500 (text r)); FLit "..."];
   st_error [FLit "URL de la API: "; FStr url]].

(** The trimmed text starts and ends with matching brackets. *)
Definition bracket_delimited (s : string) : bool :=
  (PyStr.startswith "[" s && PyStr.endswith "]" s)
  || (PyStr.startswith "{" s && PyStr.endswith "}" s).

(** [n] opening square brackets followed by [n] closing ones. *)
Fixpoint repeat_char (a : ascii) (n : nat) (tail : string) : string :=
  match n with
  | O => tail
  | S m => String a (repeat_char a m tail)
  end.

Definition nested_arrays (n : nat) : string :=
  repeat_char "[" n (repeat_char "]" n EmptyString).

(** The value that text denotes: [n] arrays one inside the other. *)
Fixpoint nest (n : nat) : json :=
  match n with
  | O => JArr []
  | S m => JArr [nest m]
  end.

(** The strings a list of Streamlit calls puts into its messages. *)
Definition shown_in (parts : list fpart) : list string :=
  flat_map (fun p => match p with FStr s => [s] | _ => [] end) parts.

Definition shown_strings (calls : list st_call) : list string :=
  flat_map
    (fun c =>
       match c with
       | st_error m | st_success m | st_write m => shown_in m
       | st_json _ => []
       end)
    calls.

(** *** A concrete setting for the examples *)

(** Modelled from the spec: [api_routes] is not among the sources.  The
    registry maps a logical name to its relative path and [build_url]
    joins the base URL and a relative path. *)
Definition local_endpoints (name : string) : string := name.

Definition local_build_url (endpoint : string) : string :=
  ("http://localhost:5000/" ++ endpoint)%string.

(** A backend that answers the [n]-th request with the [n]-th entry of a
    script, and with [otherwise] once the script is over. *)
Definition scripted (script : list NetOutcome) (otherwise : NetOutcome) :
  list Request -> Request -> NetOutcome :=
  fun earlier _ => nth (length earlier) script otherwise.

Definition local_env (script : list NetOutcome) (otherwise : NetOutcome) : Env :=
  {| build_url := local_build_url;
     ENDPOINTS := local_endpoints;
     API_BASE_URL := "http://localhost:5000";
     TOKEN := "secret";
     network := scripted script otherwise |}.

Definition fresh : World := {| sent := []; ui := [] |}.

Definition json_reply (status : Z) (phrase body : string) : NetOutcome :=
  NetResponse
    {| status_code := status; reason := phrase;
       resp_url := "http://localhost:5000/examenes";
       content_type := Some "application/json; charset=utf-8";
       text := body |}.

(** *** Dates in words *)

(** [a] is an earlier day than [b]. *)
Definition date_before (a b : date) : Prop :=
  year a < year b
  \/ (year a = year b
      /\ (month a < month b \/ (month a = month b /\ day a < day b))).

Definition same_day (a b : date) : Prop :=
  year a = year b /\ month a = month b /\ day a = day b.

(** [a] is [b] or an earlier day. *)
Definition date_leq (a b : date) : Prop := date_before a b \/ same_day a b.

(** *** Requests and reports of exam creation *)

(** The request that creates the exam, with no question attached. *)
Definition examen_request (env : Env) (titulo descripcion : string)
  (fecha_inicio fecha_fin : date) : Request :=
  mk_request "POST" (build_url env (ENDPOINTS env "examenes"))
    (Some (get_headers env))
    (Some (to_dict {| titulo := titulo; descripcion := descripcion;
                      fechaInicio := fecha_inicio; fechaFin := fecha_fin;
                      creadorId := 1; preguntasIds := [] |}))
    None.

(** The request that creates one question of the exam [examen_id]. *)
Definition pregunta_request (env : Env) (examen_id : json) (p : PreguntaForm) :
  Request :=
  mk_request "POST" (build_url env (ENDPOINTS env "preguntas"))
    (Some (get_headers env)) (Some (pregunta_payload examen_id p)) None.

(** Whether the request for a question with the body [cuerpo], issued
    after the requests [earlier], comes back from [make_request] with a
    value that counts as true. *)
Definition aceptada (env : Env) (earlier : list Request) (cuerpo : json) : bool :=
  match
    fst (make_request env "POST" (ENDPOINTS env "preguntas")
           (Some (get_headers env)) (Some cuerpo) None
           {| sent := earlier; ui := [] |})
  with
  | Ok v => truthy v
  | Raise _ => false
  end.

(** The reports due to the questions [ps], sent one after the other
    with the bodies [cuerpo p], the first after the requests
    [earlier]: for each question, whether its own request was accepted,
    and its text. *)
Fixpoint informes_de (env : Env) (cuerpo : PreguntaForm -> json)
  (earlier : list Request) (ps : list PreguntaForm) : list (bool * string) :=
  match ps with
  | [] => []
  | p :: rest =>
      (aceptada env earlier (cuerpo p), textoPregunta p)
      :: informes_de env cuerpo
           (earlier ++ [mk_request "POST" (build_url env (ENDPOINTS env "preguntas"))
                          (Some (get_headers env)) (Some (cuerpo p)) None])
           rest
  end.

(** The report of one question among the Streamlit calls: whether it
    was added, and its text. *)
Definition informe (c : st_call) : option (bool * string) :=
  match c with
  | st_success [FLit l; FStr t] =>
      if String.eqb l "✅ Pregunta agregada: " then Some (true, t) else None
  | st_error [FLit l; FStr t] =>
      if String.eqb l "❌ Error al crear la pregunta: " then Some (false, t) else None
  | _ => None
  end.

Definition informes (calls : list st_call) : list (bool * string) :=
  flat_map (fun c => match informe c with Some x => [x] | None => [] end) calls.

(** A double quote, and a text between double quotes. *)
Definition dq : string := String (PyStr.chr 34) EmptyString.

Definition quoted (s : string) : string := (dq ++ s ++ dq)%string.

(** *** Answers and submissions in words *)

Definition es_seleccion_unica (item : json * Respuesta) : bool :=
  String.eqb (tipo (snd item)) "SELECCION_UNICA".

Definition es_texto_abierto (item : json * Respuesta) : bool :=
  String.eqb (tipo (snd item)) "TEXTO_ABIERTO".

(** The error the specification names for a label that no option has. *)
Inductive AssemblyError : Type :=
| UnresolvedOption (question_id : json) (label : string).

(** The resolution as the specification words it: among the options of
    the question [question_id], the one whose text, as [st.radio] shows
    it, is [label]. *)
Definition spec_resolve_option (preguntas : list json) (question_id : json)
  (label : string) : Z + AssemblyError :=
  let unresolved := inr (UnresolvedOption question_id label) in
  match
    find (fun p => match getitem p "id" with
                   | Ok i => py_key_eqb i question_id
                   | Raise _ => false
                   end) preguntas
  with
  | Some p =>
      match get_default p "opciones" (JArr []) with
      | Ok (JArr opts) =>
          match
            find (fun o => match getitem o "textoPregunta" with
                           | Ok t => eq_str t label
                           | Raise _ => false
                           end) opts
          with
          | Some o =>
              match rbind (getitem o "id") py_int with
              | Ok n => inl n
              | Raise _ => unresolved
              end
          | None => unresolved
          end
      | _ => unresolved
      end
  | None => unresolved
  end.

(** The request [enviar_examen] posts for the payload [p]. *)
Definition results_request (env : Env) (p : Payload) : Request :=
  mk_request "POST" (API_BASE_URL env ++ "/" ++ ENDPOINTS env "results")%string
    (Some (get_headers env)) (Some (payload_json p)) None.

(** A single-choice question as the backend lists it, with its options. *)
Definition opcion (id : Z) (texto : string) : json :=
  JObj [("id", JInt id); ("textoPregunta", JStr texto); ("esCorrecta", JBool false)].

Definition pregunta_seleccion (id : Z) (texto : string) (opts : list json) : json :=
  JObj [("id", JInt id); ("textoPregunta", JStr texto);
        ("tipo", JStr "SELECCION_UNICA"); ("opciones", JArr opts)].

Definition pregunta_abierta (id : Z) (texto : string) : json :=
  JObj [("id", JInt id); ("textoPregunta", JStr texto);
        ("tipo", JStr "TEXTO_ABIERTO"); ("opciones", JArr [])].

Definition seleccion (label : string) : Respuesta :=
  {| tipo := "SELECCION_UNICA"; respuesta := label |}.

Definition texto_abierto (t : string) : Respuesta :=
  {| tipo := "TEXTO_ABIERTO"; respuesta := t |}.

(* ================================================================== *)
(** ** Further vocabulary *)

(** A question of the form with its options taken away. *)
Definition sin_opciones (p : PreguntaForm) : PreguntaForm :=
  {| textoPregunta := textoPregunta p; tipoPregunta := tipoPregunta p;
     opciones := []; puntos := puntos p |}.

(** A Streamlit call is an [st.error]. *)
Definition is_st_error (c : st_call) : bool :=
  match c with
  | st_error _ => true
  | _ => false
  end.

(** What the selection of an exam to take comes to. *)
Inductive Apertura : Type :=
| NoAbre               (* the title selected counts as false *)
| SinFila              (* no row has the title: [iloc[0]] raises *)
| Abre (examen_id : Z).

(** [if examen_seleccionado:] and, under it,
    [int(examenes_activos[examenes_activos["titulo"] == examen_seleccionado]["id"].iloc[0])] *)
Definition abrir_examen (examen_seleccionado : string) (activos : list Examen) :
  Apertura :=
  match examen_seleccionado with
  | EmptyString => NoAbre
  | _ =>
      match filter (fun e => String.eqb (ex_titulo e) examen_seleccionado) activos with
      | e :: _ => Abre (ex_id e)
      | [] => SinFila
      end
  end.

(* ================================================================== *)
(** ** The pages of [main]: roles, menu and exam management *)

From Stdlib Require Import DecimalString.

(** [f"{n}"] for an [int] *)
Definition str_int (n : Z) : string := NilZero.string_of_int (Z.to_int n).

(** The pieces of an f-string of the pages. *)
Inductive piece : Type :=
| Lit (s : string)
| Str (s : string)
| Val (v : json)
| TypeOf (v : json)                        (* [{type(v)}] *)
| StrSlice (v : json) (n : nat)            (* [{str(v)[:n]}] *)
| HeadersOf (h : list (string * string)).  (* [{headers}] *)

(** What a page shows: the calls [make_request] makes, the calls of the
    page itself by the name of the Streamlit function, and the tables
    given to [st.dataframe]. *)
Inductive ui_event : Type :=
| Legacy (c : st_call)
| Call (fn : string) (msg : list piece)
| Tabla (v : json).

(** The requests issued, what was shown, and [st.session_state.role]
    ([None] when the session has no [role]). *)
Record App : Type := {
  app_sent : list Request;
  app_ui : list ui_event;
  app_role : option string
}.

Definition A (X : Type) : Type := App -> result X * App.

Definition aret {X : Type} (x : X) : A X := fun a => (Ok x, a).

Definition abind {X Y : Type} (c : A X) (k : X -> A Y) : A Y :=
  fun a =>
    match c a with
    | (Ok x, a') => k x a'
    | (Raise e, a') => (Raise e, a')
    end.

Declare Scope app_scope.
Delimit Scope app_scope with app.
Notation "x <- c ;; k" := (abind c (fun x => k))
  (at level 61, c at next level, right associativity) : app_scope.
Notation "c ;; k" := (abind c (fun _ => k))
  (at level 61, right associativity) : app_scope.

Definition alift {X : Type} (r : result X) : A X := fun a => (r, a).

Definition call (fn : string) (msg : list piece) : A unit :=
  fun a =>
    (Ok tt, {| app_sent := app_sent a; app_ui := app_ui a ++ [Call fn msg];
               app_role := app_role a |}).

Definition tabla (v : json) : A unit :=
  fun a =>
    (Ok tt, {| app_sent := app_sent a; app_ui := app_ui a ++ [Tabla v];
               app_role := app_role a |}).

(** [st.rerun()] *)
Definition arerun {X : Type} : A X := fun a => (Raise RerunException, a).

(** A computation of the client run inside a page: its requests join
    the requests of the page, its messages what the page has shown. *)
Definition run_M {X : Type} (c : M X) : A X :=
  fun a =>
    let '(r, w) := c {| sent := app_sent a; ui := [] |} in
    (r, {| app_sent := sent w; app_ui := app_ui a ++ map Legacy (ui w);
           app_role := app_role a |}).

(** [st.session_state.role = r] and [del st.session_state.role] *)
Definition set_role (r : option string) : A unit :=
  fun a => (Ok tt, {| app_sent := app_sent a; app_ui := app_ui a; app_role := r |}).

(** [st.session_state.role]: reading it raises when the session has none. *)
Definition session_role : A string :=
  fun a =>
    match app_role a with
    | Some r => (Ok r, a)
    | None => (Raise (AttributeError "role"), a)
    end.

Definition ROLES : list (string * string) :=
  [("admin", "ADMIN"); ("teacher", "TEACHER"); ("student", "STUDENT")].

(** [select_role].  [seleccion] is what [st.selectbox] returns, one of
    the keys of [ROLES]; [continuar] and [cambiar] are what the buttons
    [Continuar] and [Cambiar Rol] return. *)
Definition select_role (seleccion : string) (continuar cambiar : bool) :
  A (option string) :=
  (call "st.sidebar.title" [Lit "👤 Selecciona tu Rol"] ;;
   fun a =>
     match app_role a with
     | None =>
         let role := Some seleccion in
         (if continuar then (set_role role ;; arerun) else aret role) a
     | Some _ =>
         (r <- session_role ;;
          call "st.sidebar.success" [Lit "Rol seleccionado: "; Str r] ;;
          (if cambiar then (set_role None ;; arerun) else aret tt) ;;
          role <- session_role ;;
          aret (Some role)) a
     end)%app.

(** The menu [main] offers to a role. *)
Definition menu_de (role : string) : list string :=
  if String.eqb role "admin" then
    ["Inicio"; "Exámenes"; "Resultados"; "Usuarios"; "Configuración"; "Estadísticas"]
  else if String.eqb role "student" then
    ["Inicio"; "Realizar Examen"; "Resultados"]
  else ["Inicio"; "Exámenes"; "Resultados"].

Inductive Pagina : Type :=
| PInicio | PExamenes | PRealizarExamen | PResultados
| PUsuarios | PEstadisticas | PConfiguracion.

(** [main] up to the page it enters: the role, the choice in the menu
    ([choice] is what [st.sidebar.selectbox("Menú", menu)] returns) and
    the check of the role at the head of the page.  The value is the
    page whose body runs next, [None] when [main] returns before any. *)
Definition main_hasta_pagina (seleccion : string) (continuar cambiar : bool)
  (choice : string) : A (option Pagina) :=
  (role <- select_role seleccion continuar cambiar ;;
   match role with
   | None | Some EmptyString =>
       call "st.warning" [Lit "Por favor selecciona tu rol para continuar"] ;;
       aret None
   | Some _ =>
       if String.eqb choice "Inicio" then aret (Some PInicio)
       else if String.eqb choice "Exámenes" then aret (Some PExamenes)
       else if String.eqb choice "Realizar Examen" then
         r <- session_role ;;
         if negb (String.eqb r "student") then
           call "st.warning" [Lit "Esta sección solo está disponible para estudiantes"] ;;
           aret None
         else aret (Some PRealizarExamen)
       else if String.eqb choice "Resultados" then aret (Some PResultados)
       else if String.eqb choice "Usuarios" then
         r <- session_role ;;
         if negb (String.eqb r "admin") then
           call "st.warning" [Lit "Esta sección solo está disponible para administradores"] ;;
           aret None
         else aret (Some PUsuarios)
       else if String.eqb choice "Estadísticas" then aret (Some PEstadisticas)
       else if String.eqb choice "Configuración" then
         r <- session_role ;;
         if negb (String.eqb r "admin") then
           call "st.warning" [Lit "Esta sección solo está disponible para administradores"] ;;
           aret None
         else aret (Some PConfiguracion)
       else aret None
   end)%app.

(** The page a choice of the menu names. *)
Definition pagina_de (choice : string) : option Pagina :=
  if String.eqb choice "Inicio" then Some PInicio
  else if String.eqb choice "Exámenes" then Some PExamenes
  else if String.eqb choice "Realizar Examen" then Some PRealizarExamen
  else if String.eqb choice "Resultados" then Some PResultados
  else if String.eqb choice "Usuarios" then Some PUsuarios
  else if String.eqb choice "Estadísticas" then Some PEstadisticas
  else if String.eqb choice "Configuración" then Some PConfiguracion
  else None.

Section Gestion.

Variable env : Env.

(** [requests.put] and [requests.delete]: the request is issued as it
    is, what it raises is not caught. *)
Definition requests_call (method url : string)
  (headers : option (list (string * string))) (data : option json) : A Response :=
  fun a =>
    let req := mk_request method url headers data None in
    let a' := {| app_sent := app_sent a ++ [req]; app_ui := app_ui a;
                 app_role := app_role a |} in
    match network env (app_sent a) req with
    | NetRaise msg => (Raise (RequestException msg), a')
    | NetResponse r => (Ok r, a')
    end.

(** The URL of one exam. *)
Definition examen_url (exam_id : Z) : string :=
  build_url env (ENDPOINTS env "examenes" ++ "/" ++ str_int exam_id)%string.

(** The block that deletes an exam.  [exam_id_delete] is the identifier
    chosen in the table, [exam_titulo_delete] the title of its row,
    [confirmar] what [st.radio] returns and [boton] what the button
    [Confirmar eliminación] returns. *)
Definition eliminar_examen (exam_id_delete : Z) (exam_titulo_delete : string)
  (confirmar : string) (boton : bool) : A unit :=
  (call "st.subheader" [Lit "🗑️ Eliminar examen"] ;;
   call "st.warning"
     [Lit "Estás a punto de eliminar el examen: **"; Str exam_titulo_delete;
      Lit "** (ID: "; Val (JInt exam_id_delete); Lit ")"] ;;
   if String.eqb confirmar "Sí" then
     if boton then
       response <-
         requests_call "DELETE" (examen_url exam_id_delete)
           (Some (get_headers env)) None ;;
       if status_code response =? 204 then
         call "st.success"
           [Lit "✅ Examen ID "; Val (JInt exam_id_delete); Lit " eliminado con éxito"] ;;
         arerun
       else
         call "st.error"
           [Lit "❌ Error al eliminar el examen. Código: ";
            Val (JInt (status_code response))]
     else aret tt
   else aret tt)%app.

(** The body sent when an exam is edited. *)
Definition editar_payload (nuevo_titulo nueva_descripcion : string)
  (nueva_fecha_inicio nueva_fecha_fin : date) (creador : Z) (ids : list Z) : json :=
  JObj [("titulo", JStr nuevo_titulo);
        ("descripcion", JStr nueva_descripcion);
        ("fechaInicio", JStr (isoformat nueva_fecha_inicio));
        ("fechaFin", JStr (isoformat nueva_fecha_fin));
        ("creadorId", JInt creador);
        ("preguntasIds", JArr (map JInt ids))].

(** The block that edits an exam.  [examen] is the row chosen, its
    cells by the name of their column; [to_date] is
    [pd.to_datetime(x).date()], which gives the dates the form starts
    from; the other arguments are what the widgets of the form return. *)
Definition editar_examen (to_date : json -> result date) (exam_id_edit : Z)
  (examen : json) (nuevo_titulo nueva_descripcion : string)
  (nueva_fecha_inicio nueva_fecha_fin : date) (submit : bool) : A unit :=
  (call "st.subheader" [Lit "✏️ Editar examen"] ;;
   if exam_id_edit =? 0 then aret tt
   else
     _ <- alift (getitem examen "titulo") ;;
     _ <- alift (getitem examen "descripcion") ;;
     _ <- alift (rbind (getitem examen "fechaInicio") to_date) ;;
     _ <- alift (rbind (getitem examen "fechaFin") to_date) ;;
     if submit then
       creador <- alift (rbind (getitem examen "creadorId") py_int) ;;
       ids <- alift (rbind (get_default examen "preguntasIds" (JArr []))
                       (fun cell => rbind (iter cell) (rmap py_int))) ;;
       response <-
         requests_call "PUT" (examen_url exam_id_edit) (Some (get_headers env))
           (Some (editar_payload nuevo_titulo nueva_descripcion
                    nueva_fecha_inicio nueva_fecha_fin creador ids)) ;;
       if status_code response =? 200 then
         call "st.success" [Lit "Examen actualixado con éxito!!!"] ;;
         arerun
       else
         call "st.error" [Lit "Error al actualizar el examen"] ;;
         call "st.write" [Lit "Detalles del error: "; Str (text response)]
     else aret tt)%app.

(** The endpoint of the questions of one exam. *)
Definition preguntas_endpoint (exam_id : Z) : string :=
  (ENDPOINTS env "examenes" ++ "/" ++ str_int exam_id ++ "/preguntas")%string.

(** The block that lists the questions of an exam.  [exam_id] is the
    identifier chosen in the table and [exam_titulo] the title of its
    row. *)
Definition ver_preguntas (exam_id : Z) (exam_titulo : string) : A unit :=
  (call "st.subheader" [Lit "🔍 Ver preguntas de un examen"] ;;
   call "st.write" [Lit "Título: "; Str exam_titulo] ;;
   if exam_id =? 0 then aret tt
   else
     preguntas <-
       run_M (make_request env "GET" (preguntas_endpoint exam_id)
                (Some (get_headers env)) None None) ;;
     match preguntas with
     | JNull =>
         call "st.error" [Lit "❌ Error al obtener las preguntas del examen"] ;;
         call "st.write" [Lit "Endpoint usado: "; Str (preguntas_endpoint exam_id)] ;;
         call "st.write" [Lit "Headers: "; HeadersOf (get_headers env)]
     | JArr [] =>
         call "st.warning"
           [Lit "⚠️ Este examen no tiene preguntas registradas. ID: ";
            Val (JInt exam_id); Lit ", Título: "; Str exam_titulo]
     | JArr _ =>
         call "st.success" [Lit "📋 Preguntas del examen:  "; Str exam_titulo] ;;
         tabla preguntas
     | _ =>
         call "st.error"
           [Lit "❌ Error en la respuesta del servidor. Tipo recibido: ";
            TypeOf preguntas] ;;
         call "st.write" [Lit "Datos recibidos: "; StrSlice preguntas 500; Lit "..."]
     end)%app.

End Gestion.

Section TomarExamen.

Variable env : Env.

(** The page of the exams to take, after the check of the role.
    [con_examenes] stands for the block run when the list of exams
    counts as true (the table, the filter of the active exams, the
    questions and the button that sends the answers). *)
Definition realizar_examen (con_examenes : json -> A unit) : A unit :=
  (call "st.header" [Lit "📝 Realizar Examen"] ;;
   call "st.write" [Lit "Selecciona un examen para realizarlo"] ;;
   examenes <-
     run_M (make_request env "GET" (ENDPOINTS env "examenes")
              (Some (get_headers env)) None None) ;;
   (if truthy examenes then con_examenes examenes
    else call "st.error" [Lit "❌ Error al obtener la lista de exámenes"]) ;;
   call "st.info" [Lit "No hay exámenes disponibles."] ;;
   call "st.markdown" [Lit "---"])%app.

End TomarExamen.

(* ================================================================== *)
(** * Properties *)

(** ** The API client *)

Lemma decode_json_raises_ValueError (text : string) (d : Z) (e : PyExc) :
  decode_json text d = Raise e -> is_ValueError e = true.
Proof.
  unfold decode_json.
  destruct (d >? max_depth); [intros [= <-]; reflexivity|].
  destruct (JsonLoads.json_loads text); [discriminate|].
  destruct (_ && _).
  - destruct (JsonLoads.json_loads _); [discriminate|intros [= <-]; reflexivity].
  - destruct (_ && _).
    + destruct (JsonLoads.json_loads _); [discriminate|intros [= <-]; reflexivity].
    + intros [= <-]; reflexivity.
Qed.

(** The depth guard of [decode_json] compares the default 0 with 100,
    so it never fires: what a call returns is decided by [json.loads]
    on the text and on the trimmed text only. *)
Lemma decode_json_at_0 (text : string) :
  decode_json text 0 =
  match JsonLoads.json_loads text with
  | Some v => Ok v
  | None =>
      if bracket_delimited (PyStr.strip text)
      then
        match JsonLoads.json_loads (PyStr.strip text) with
        | Some v => Ok v
        | None => Raise (JSONDecodeError (PyStr.strip text))
        end
      else Raise (JSONDecodeError text)
  end.
Proof.
  unfold decode_json, bracket_delimited.
  change (0 >? max_depth) with false; cbv iota.
  destruct (JsonLoads.json_loads text); [reflexivity|].
  destruct (PyStr.startswith "[" _ && PyStr.endswith "]" _); [reflexivity|].
  destruct (PyStr.startswith "{" _ && PyStr.endswith "}" _); reflexivity.
Qed.

Ltac close_run :=
  unfold add_ui, add_sent, st, ret, raise, lift; cbn [sent ui fst snd];
  repeat rewrite <- app_assoc; cbn [app]; try reflexivity.

(** Every way [make_request] can go. *)
Lemma make_request_cases (env : Env) (method endpoint : string)
  (headers : option (list (string * string))) (data params : option json)
  (w : World) :
  let url := build_url env endpoint in
  let req := mk_request method url headers data params in
  make_request env method endpoint headers data params w =
  match network env (sent w) req with
  | NetRaise msg =>
      (Ok JNull, add_ui (add_sent w req) (connection_report (RequestException msg) url))
  | NetResponse r =>
      if error_status (status_code r) then
        (Ok JNull,
         add_ui (add_sent w req)
           (connection_report (HTTPError (status_code r) (reason r) (resp_url r)) url))
      else if says_json r then
        if String.eqb (text r) EmptyString then (Ok (JArr []), add_sent w req)
        else
          match decode_json (text r) 0 with
          | Ok v => (Ok v, add_sent w req)
          | Raise e => (Ok JNull, add_ui (add_sent w req) (decode_report e r url))
          end
      else (Ok JNull, add_ui (add_sent w req) (content_type_report r url))
  end.
Proof.
  intros url req.
  unfold make_request, try_except, bind, requests_request, raise_for_status.
  fold url. fold (mk_request method url headers data params). fold req.
  destruct (network env (sent w) req) as [msg|r];
    [cbn [is_RequestException]; unfold connection_report; close_run|].
  unfold error_status.
  destruct ((400 <=? status_code r) && (status_code r <? 600));
    [unfold raise; cbn [is_RequestException]; unfold connection_report; close_run|].
  cbn [raise ret].
  unfold says_json, header_or_empty.
  destruct (PyStr.contains _ _);
    [|unfold content_type_report, header_or_empty; close_run].
  destruct (String.eqb (text r) EmptyString); [close_run|].
  unfold lift.
  destruct (decode_json (text r) 0) as [v|e] eqn:E; [close_run|].
  rewrite (decode_json_raises_ValueError _ _ _ E).
  unfold decode_report, header_or_empty; close_run.
Qed.

Lemma error_status_iff (s : Z) : error_status s = true <-> 400 <= s < 600.
Proof. unfold error_status. rewrite andb_true_iff, Z.leb_le, Z.ltb_lt. tauto. Qed.

Lemma error_status_false_iff (s : Z) :
  error_status s = false <-> ~ (400 <= s < 600).
Proof.
  rewrite <- error_status_iff. destruct (error_status s); split; congruence.
Qed.

(** C6, as the code has it.  A network-level failure is reported with
    the exception's message and the URL.  A 4xx or 5xx status is
    reported the same way, through the [HTTPError] of
    [raise_for_status], which holds the status and the URL of the
    response; no part of the body is shown.  In both cases the call
    returns [None]: the failure does not reach the caller as an
    exception. *)
Theorem C6_failures_reported_not_raised (env : Env) (method endpoint : string)
  (headers : option (list (string * string))) (data params : option json)
  (w : World) :
  let url := build_url env endpoint in
  let req := mk_request method url headers data params in
  (forall msg, network env (sent w) req = NetRaise msg ->
     make_request env method endpoint headers data params w =
     (Ok JNull,
      add_ui (add_sent w req) (connection_report (RequestException msg) url)))
  /\ (forall r, network env (sent w) req = NetResponse r ->
      400 <= status_code r < 600 ->
      make_request env method endpoint headers data params w =
      (Ok JNull,
       add_ui (add_sent w req)
         (connection_report (HTTPError (status_code r) (reason r) (resp_url r)) url))
      /\ shown_strings
           (connection_report (HTTPError (status_code r) (reason r) (resp_url r)) url)
         = [url]).
Proof.
  intros url req. split.
  - intros msg H. rewrite make_request_cases. fold url; fold req. rewrite H. reflexivity.
  - intros r H Hs. split; [|reflexivity].
    rewrite make_request_cases. fold url; fold req. rewrite H.
    apply error_status_iff in Hs. rewrite Hs. reflexivity.
Qed.

Lemma C6_witness :
  let env := local_env [json_reply 503 "Service Unavailable" "down for maintenance"]
               (NetRaise "Connection refused") in
  make_request env "GET" "examenes" None None None fresh =
  (Ok JNull,
   {| sent := [mk_request "GET" "http://localhost:5000/examenes" None None None];
      ui := [st_error [FLit "❌ Error en la conexión con la API: ";
                       FExc (HTTPError 503 "Service Unavailable"
                               "http://localhost:5000/examenes")];
             st_error [FLit "URL de la API: "; FStr "http://localhost:5000/examenes"]] |}).
Proof.
  intros env.
  exact (proj1 (proj2 (C6_failures_reported_not_raised env "GET" "examenes"
                        None None None fresh) _ eq_refl ltac:(simpl; lia))).
Defined.

(** C6 as the specification words it fails twice.  A 404 whose body is
    [boom] is reported without any part of the body; a 304, which is not
    a 2xx status, is no error at all and its body is decoded. *)
Lemma C6_counterexample :
  let url := "http://localhost:5000/examenes" in
  let req := mk_request "GET" url None None None in
  (make_request (local_env [] (json_reply 404 "Not Found" "boom"))
     "GET" "examenes" None None None fresh =
   (Ok JNull,
    {| sent := [req];
       ui := [st_error [FLit "❌ Error en la conexión con la API: ";
                        FExc (HTTPError 404 "Not Found" url)];
              st_error [FLit "URL de la API: "; FStr url]] |})
   /\ ~ In (PyStr.slice_to 500 "boom")
          (shown_strings
             (ui (snd (make_request (local_env [] (json_reply 404 "Not Found" "boom"))
                         "GET" "examenes" None None None fresh)))))
  /\ make_request (local_env [] (json_reply 304 "Not Modified" "[1]"))
       "GET" "examenes" None None None fresh =
     (Ok (JArr [JInt 1]), {| sent := [req]; ui := [] |}).
Proof.
  intros url req. split; [split|].
  - vm_compute. reflexivity.
  - vm_compute. intros [H|[]]. discriminate H.
  - vm_compute. reflexivity.
Qed.

(** C7.  A response that passes [raise_for_status], is taken for JSON
    and has an empty body gives the empty list, with no message shown;
    a body that cannot be decoded gives [None] instead. *)
Theorem C7_empty_body_gives_empty_list (env : Env) (method endpoint : string)
  (headers : option (list (string * string))) (data params : option json)
  (w : World) (r : Response) :
  let req := mk_request method (build_url env endpoint) headers data params in
  network env (sent w) req = NetResponse r ->
  ~ (400 <= status_code r < 600) ->
  says_json r = true ->
  text r = EmptyString ->
  make_request env method endpoint headers data params w =
  (Ok (JArr []), add_sent w req).
Proof.
  intros req Hnet Hs Hj Ht.
  rewrite make_request_cases. fold req. rewrite Hnet.
  apply error_status_false_iff in Hs. rewrite Hs, Hj, Ht. reflexivity.
Qed.

Lemma C7_witness :
  make_request (local_env [] (json_reply 200 "OK" EmptyString))
    "GET" "examenes" None None None fresh =
  (Ok (JArr []),
   {| sent := [mk_request "GET" "http://localhost:5000/examenes" None None None];
      ui := [] |}).
Proof.
  exact (C7_empty_body_gives_empty_list
           (local_env [] (json_reply 200 "OK" EmptyString))
           "GET" "examenes" None None None fresh _ eq_refl
           ltac:(simpl; lia) eq_refl eq_refl).
Defined.

(** The only exception [decode_json] raises when called as
    [make_request] calls it is the [JSONDecodeError] of [json.loads]:
    the error of the depth guard is out of reach. *)
Lemma decode_json_never_hits_the_bound (text : string) (e : PyExc) :
  decode_json text 0 = Raise e -> exists doc, e = JSONDecodeError doc.
Proof.
  rewrite decode_json_at_0.
  destruct (JsonLoads.json_loads text); [discriminate|].
  destruct (bracket_delimited _).
  - destruct (JsonLoads.json_loads _); [discriminate|]. intros [= <-]; eauto.
  - intros [= <-]; eauto.
Qed.

(** *** Arrays nested to any depth are decoded *)

Lemma repeat_app_cons {A : Type} (x : A) (n : nat) (l : list A) :
  repeat x n ++ x :: l = x :: repeat x n ++ l.
Proof. induction n as [|n IH]; [reflexivity|]. cbn. now rewrite IH. Qed.

Lemma lex_opening (n : nat) (toks : list JsonLoads.token) (s : string) :
  JsonLoads.lex JsonLoads.LIdle toks (repeat_char "[" n s) =
  JsonLoads.lex JsonLoads.LIdle (repeat JsonLoads.TLBrack n ++ toks) s.
Proof.
  revert toks. induction n as [|n IH]; intros toks; [reflexivity|].
  cbn [repeat_char]. change (JsonLoads.lex JsonLoads.LIdle toks (String "[" (repeat_char "[" n s)))
    with (JsonLoads.lex JsonLoads.LIdle (JsonLoads.TLBrack :: toks) (repeat_char "[" n s)).
  rewrite IH. cbn [repeat]. now rewrite repeat_app_cons.
Qed.

Lemma lex_closing (n : nat) (toks : list JsonLoads.token) :
  JsonLoads.lex JsonLoads.LIdle toks (repeat_char "]" n EmptyString) =
  Some (rev (repeat JsonLoads.TRBrack n ++ toks)).
Proof.
  revert toks. induction n as [|n IH]; intros toks; [reflexivity|].
  cbn [repeat_char]. change (JsonLoads.lex JsonLoads.LIdle toks
                               (String "]" (repeat_char "]" n EmptyString)))
    with (JsonLoads.lex JsonLoads.LIdle (JsonLoads.TRBrack :: toks)
            (repeat_char "]" n EmptyString)).
  rewrite IH. cbn [repeat]. now rewrite repeat_app_cons.
Qed.

Lemma rev_repeat {A : Type} (x : A) (n : nat) : rev (repeat x n) = repeat x n.
Proof.
  induction n as [|n IH]; [reflexivity|].
  cbn [repeat rev]. rewrite IH. symmetry. apply repeat_cons.
Qed.

Lemma lex_nested_arrays (n : nat) :
  JsonLoads.lex JsonLoads.LIdle [] (nested_arrays n) =
  Some (repeat JsonLoads.TLBrack n ++ repeat JsonLoads.TRBrack n).
Proof.
  unfold nested_arrays. rewrite lex_opening, lex_closing, app_nil_r.
  now rewrite rev_app_distr, !rev_repeat.
Qed.

Lemma parse_opening (n : nat) (p : JsonLoads.pstate) (stack : list JsonLoads.frame)
  (toks : list JsonLoads.token) :
  JsonLoads.expects_value p = true ->
  JsonLoads.parse p stack (repeat JsonLoads.TLBrack (S n) ++ toks) =
  JsonLoads.parse JsonLoads.PValueOrEnd
    (repeat (JsonLoads.FArr []) (S n) ++ stack) toks.
Proof.
  revert p stack. induction n as [|n IH]; intros p stack E.
  - cbn [repeat app JsonLoads.parse JsonLoads.pstep]. now rewrite E.
  - change (repeat JsonLoads.TLBrack (S (S n)) ++ toks)
      with (JsonLoads.TLBrack :: repeat JsonLoads.TLBrack (S n) ++ toks).
    cbn [JsonLoads.parse JsonLoads.pstep]. rewrite E.
    rewrite (IH JsonLoads.PValueOrEnd _ eq_refl).
    change (repeat (JsonLoads.FArr []) (S (S n)) ++ stack)
      with (JsonLoads.FArr [] :: repeat (JsonLoads.FArr []) (S n) ++ stack).
    now rewrite repeat_app_cons.
Qed.

Lemma iter_wrap (n : nat) (v : json) :
  Nat.iter n (fun x => JArr [x]) (JArr [v]) = Nat.iter (S n) (fun x => JArr [x]) v.
Proof.
  induction n as [|n IH]; [reflexivity|].
  change (JArr [Nat.iter n (fun x => JArr [x]) (JArr [v])] =
          JArr [Nat.iter (S n) (fun x => JArr [x]) v]).
  now rewrite IH.
Qed.

Lemma parse_closing (n : nat) (v : json) :
  JsonLoads.parse JsonLoads.PAfter
    (JsonLoads.FArr [v] :: repeat (JsonLoads.FArr []) n)
    (repeat JsonLoads.TRBrack (S n)) =
  Some (Nat.iter (S n) (fun x => JArr [x]) v).
Proof.
  revert v. induction n as [|n IH]; intros v; [reflexivity|].
  change (repeat JsonLoads.TRBrack (S (S n)))
    with (JsonLoads.TRBrack :: repeat JsonLoads.TRBrack (S n)).
  change (repeat (JsonLoads.FArr []) (S n))
    with (JsonLoads.FArr [] :: repeat (JsonLoads.FArr []) n).
  cbn [JsonLoads.parse JsonLoads.pstep JsonLoads.push_value rev app].
  rewrite IH. f_equal. apply iter_wrap.
Qed.

Lemma nest_iter (n : nat) : nest n = Nat.iter n (fun x => JArr [x]) (JArr []).
Proof. induction n as [|n IH]; [reflexivity|]. cbn. now rewrite IH. Qed.

Lemma json_loads_nested_arrays (n : nat) :
  JsonLoads.json_loads (nested_arrays (S n)) = Some (nest n).
Proof.
  unfold JsonLoads.json_loads. rewrite lex_nested_arrays.
  rewrite (parse_opening n JsonLoads.PValue [] _ eq_refl), app_nil_r.
  destruct n as [|n]; [reflexivity|].
  change (repeat JsonLoads.TRBrack (S (S n)))
    with (JsonLoads.TRBrack :: repeat JsonLoads.TRBrack (S n)).
  change (repeat (JsonLoads.FArr []) (S (S n)))
    with (JsonLoads.FArr [] :: JsonLoads.FArr [] :: repeat (JsonLoads.FArr []) n).
  cbn [JsonLoads.parse JsonLoads.pstep JsonLoads.push_value rev app].
  rewrite parse_closing, nest_iter. reflexivity.
Qed.

Lemma depth_nest (n : nat) : depth (nest n) = S n.
Proof.
  induction n as [|n IH]; [reflexivity|].
  change (S (Nat.max (depth (nest n)) 0) = S (S n)).
  now rewrite Nat.max_0_r, IH.
Qed.

(** C2 fails on the code.  Arrays nested to any depth are decoded:
    [decode_json] is entered once with [depth] 0 and hands the whole
    text to [json.loads].  In particular a body of 101 arrays one
    inside the other is deeper than [max_depth], yet [make_request]
    returns its value and shows no error. *)
Theorem C2_deep_body_is_decoded :
  (forall n : nat,
     decode_json (nested_arrays (S n)) 0 = Ok (nest n)
     /\ depth (nest n) = S n)
  /\ make_request (local_env [] (json_reply 200 "OK" (nested_arrays 101)))
       "GET" "examenes" None None None fresh =
     (Ok (nest 100),
      {| sent := [mk_request "GET" "http://localhost:5000/examenes" None None None];
         ui := [] |})
  /\ (Z.of_nat (depth (nest 100)) >? max_depth) = true.
Proof.
  split; [|split; vm_compute; reflexivity].
  intros n. split; [|apply depth_nest].
  rewrite decode_json_at_0, json_loads_nested_arrays. reflexivity.
Qed.

(** C8.  For a response taken for JSON with a body that is not empty:
    when [json.loads] takes the body, its value is returned; when it
    does not, the body is trimmed and, if the trimmed text is delimited
    by matching brackets, [json.loads] is tried once more on it; when
    that fails too, or the trimmed text is not so delimited, the decode
    error is reported and [None] returned.  The two bodies the
    specification names behave as it says. *)
Theorem C8_one_recovery_attempt :
  (forall (env : Env) (method endpoint : string)
     (headers : option (list (string * string))) (data params : option json)
     (w : World) (r : Response),
     let url := build_url env endpoint in
     let req := mk_request method url headers data params in
     network env (sent w) req = NetResponse r ->
     ~ (400 <= status_code r < 600) ->
     says_json r = true ->
     text r <> EmptyString ->
     make_request env method endpoint headers data params w =
     match JsonLoads.json_loads (text r) with
     | Some v => (Ok v, add_sent w req)
     | None =>
         let cleaned := PyStr.strip (text r) in
         if bracket_delimited cleaned then
           match JsonLoads.json_loads cleaned with
           | Some v => (Ok v, add_sent w req)
           | None =>
               (Ok JNull,
                add_ui (add_sent w req) (decode_report (JSONDecodeError cleaned) r url))
           end
         else
           (Ok JNull,
            add_ui (add_sent w req) (decode_report (JSONDecodeError (text r)) r url))
     end)
  /\ decode_json "  [1,2,3]  " 0 = Ok (JArr [JInt 1; JInt 2; JInt 3])
  /\ decode_json "not json" 0 = Raise (JSONDecodeError "not json").
Proof.
  split; [|split; vm_compute; reflexivity].
  intros env method endpoint headers data params w r url req Hnet Hs Hj Ht.
  rewrite make_request_cases. fold url; fold req. rewrite Hnet.
  apply error_status_false_iff in Hs. rewrite Hs, Hj.
  apply String.eqb_neq in Ht. rewrite Ht.
  rewrite decode_json_at_0.
  destruct (JsonLoads.json_loads (text r)); [reflexivity|].
  cbv zeta. destruct (bracket_delimited _); [|reflexivity].
  destruct (JsonLoads.json_loads _); reflexivity.
Qed.

(** A body with a form feed on each side: [json.loads] refuses it, the
    trimmed text is taken. *)
Lemma C8_witness :
  let body := String (PyStr.chr 12) ("[1,2,3]" ++ String (PyStr.chr 12) EmptyString) in
  JsonLoads.json_loads body = None
  /\ make_request (local_env [] (json_reply 200 "OK" body))
       "GET" "examenes" None None None fresh =
     (Ok (JArr [JInt 1; JInt 2; JInt 3]),
      {| sent := [mk_request "GET" "http://localhost:5000/examenes" None None None];
         ui := [] |}).
Proof.
  intros body. split; [reflexivity|].
  exact (proj1 C8_one_recovery_attempt
           (local_env [] (json_reply 200 "OK" body))
           "GET" "examenes" None None None fresh _ eq_refl
           ltac:(simpl; lia) eq_refl ltac:(discriminate)).
Defined.

(** ** Dates *)

Lemma date_cmp_Lt (a b : date) : date_cmp a b = Lt <-> date_before a b.
Proof.
  unfold date_cmp, date_before.
  destruct (Z.compare_spec (year a) (year b));
    destruct (Z.compare_spec (month a) (month b));
    destruct (Z.compare_spec (day a) (day b));
    split; intros; try discriminate; try reflexivity; try lia.
Qed.

Lemma date_cmp_Eq (a b : date) : date_cmp a b = Eq <-> same_day a b.
Proof.
  unfold date_cmp, same_day.
  destruct (Z.compare_spec (year a) (year b));
    destruct (Z.compare_spec (month a) (month b));
    destruct (Z.compare_spec (day a) (day b));
    split; intros; try discriminate; try reflexivity; try lia.
Qed.

Lemma date_cmp_Gt (a b : date) : date_cmp a b = Gt <-> date_before b a.
Proof.
  unfold date_cmp, date_before.
  destruct (Z.compare_spec (year a) (year b));
    destruct (Z.compare_spec (month a) (month b));
    destruct (Z.compare_spec (day a) (day b));
    split; intros; try discriminate; try reflexivity; try lia.
Qed.

Lemma date_le_iff (a b : date) : date_le a b = true <-> date_leq a b.
Proof.
  unfold date_le, date_leq. rewrite <- date_cmp_Lt, <- date_cmp_Eq.
  destruct (date_cmp a b); split; intros; try discriminate; auto.
  destruct H; discriminate.
Qed.

Lemma date_ge_iff (a b : date) : date_ge a b = true <-> date_leq b a.
Proof.
  unfold date_ge, date_leq. rewrite <- date_cmp_Gt.
  assert (E : same_day b a <-> date_cmp a b = Eq).
  { rewrite date_cmp_Eq. unfold same_day. intuition congruence. }
  rewrite E.
  destruct (date_cmp a b); split; intros; try discriminate; auto.
  destruct H; discriminate.
Qed.

Lemma date_ge_false_iff (a b : date) : date_ge a b = false <-> date_before a b.
Proof.
  unfold date_ge. rewrite <- date_cmp_Lt.
  destruct (date_cmp a b); split; intros; try discriminate; auto.
Qed.

Lemma date_leq_refl (a : date) : date_leq a a.
Proof. right. repeat split. Qed.

(** ** The active exams *)

(** Membership in [examenes_activos], filter by filter. *)
Lemma examenes_activos_In (hoy : date) (df_examenes : list Examen) (e : Examen) :
  In e (examenes_activos hoy df_examenes) <->
  In e df_examenes
  /\ date_leq (ex_fechaInicio e) hoy
  /\ date_leq hoy (ex_fechaFin e)
  /\ exists q ids, ex_preguntasIds e = JArr (q :: ids).
Proof.
  unfold examenes_activos.
  rewrite !filter_In, andb_true_iff, date_le_iff, date_ge_iff.
  assert (Q : tiene_preguntas (ex_preguntasIds e) = true <->
              exists q ids, ex_preguntasIds e = JArr (q :: ids)).
  { unfold tiene_preguntas. destruct (ex_preguntasIds e) as [| | | | |l|];
      try (split; [discriminate|intros (q & ids & H); discriminate H]).
    destruct l as [|q ids].
    - split; [discriminate|intros (q & ids & H); discriminate H].
    - split; [eauto|reflexivity]. }
  rewrite Q. tauto.
Qed.

(** [is_active] says whether the exam passes both filters. *)
Lemma is_active_iff (e : Examen) (hoy : date) :
  is_active e hoy = true <->
  date_leq (ex_fechaInicio e) hoy
  /\ date_leq hoy (ex_fechaFin e)
  /\ exists q ids, ex_preguntasIds e = JArr (q :: ids).
Proof.
  unfold is_active.
  pose proof (examenes_activos_In hoy [e] e) as H.
  destruct (examenes_activos hoy [e]) as [|x l] eqn:E.
  - split; [discriminate|]. intros A. exfalso.
    apply (proj2 H). split; [now left|exact A].
  - split; [|reflexivity]. intros _.
    assert (I : In x (examenes_activos hoy [e])) by (rewrite E; now left).
    unfold examenes_activos in I. rewrite !filter_In in I.
    destruct I as [[[<-|[]] _] _].
    apply (proj1 H). now left.
Qed.

(** C3.  An exam is among [examenes_activos], the exams offered to the
    student, exactly when it is a row of the table, its first day is
    today or earlier, its last day is today or later, and its
    [preguntasIds] is a list that is not empty; every other row is
    filtered out.  Both ends of the window count: an exam with
    questions is active on its first and on its last day. *)
Theorem C3_active_iff_in_window_with_questions (hoy : date)
  (df_examenes : list Examen) (e : Examen) :
  (In e (examenes_activos hoy df_examenes) <->
   In e df_examenes
   /\ date_leq (ex_fechaInicio e) hoy
   /\ date_leq hoy (ex_fechaFin e)
   /\ exists q ids, ex_preguntasIds e = JArr (q :: ids))
  /\ (date_leq (ex_fechaInicio e) (ex_fechaFin e) ->
      (exists q ids, ex_preguntasIds e = JArr (q :: ids)) ->
      is_active e (ex_fechaInicio e) = true /\ is_active e (ex_fechaFin e) = true).
Proof.
  split; [apply examenes_activos_In|].
  intros W Q. split; apply is_active_iff; repeat split;
    try assumption; apply date_leq_refl.
Qed.

(** On its first and on its last day an exam with questions is active. *)
Lemma C3_witness :
  let e := {| ex_id := 4; ex_titulo := "Parcial";
              ex_fechaInicio := {| year := 2024; month := 2; day := 28 |};
              ex_fechaFin := {| year := 2024; month := 3; day := 1 |};
              ex_preguntasIds := JArr [JInt 9] |} in
  is_active e (ex_fechaInicio e) = true /\ is_active e (ex_fechaFin e) = true.
Proof.
  intros e.
  refine (proj2 (C3_active_iff_in_window_with_questions (ex_fechaInicio e) [e] e) _ _).
  - left. right. split; [reflexivity|]. left. simpl. lia.
  - exists (JInt 9), []. reflexivity.
Defined.

(** ** Exam creation *)

(** A call of [make_request] issues one request and shows messages of
    its own only, none of which reports on a question. *)
Lemma make_request_effects (env : Env) (method endpoint : string)
  (headers : option (list (string * string))) (data params : option json)
  (w : World) :
  exists v extra,
    make_request env method endpoint headers data params w =
    (Ok v,
     add_ui (add_sent w (mk_request method (build_url env endpoint) headers data params))
       extra)
    /\ informes extra = [].
Proof.
  rewrite make_request_cases.
  assert (Z : forall w', w' = add_ui w' []).
  { intros [s u]. unfold add_ui; cbn. now rewrite app_nil_r. }
  destruct (network env (sent w) _) as [msg|r]; [eexists _, _; split; reflexivity|].
  destruct (error_status _); [eexists _, _; split; reflexivity|].
  destruct (says_json r); [|eexists _, _; split; reflexivity].
  destruct (String.eqb _ _); [exists (JArr []), []; split; [apply f_equal, Z|reflexivity]|].
  destruct (decode_json _ _) as [v|e];
    [exists v, []; split; [apply f_equal, Z|reflexivity]|].
  eexists _, _; split; reflexivity.
Qed.

Lemma informes_app (a b : list st_call) : informes (a ++ b) = informes a ++ informes b.
Proof. apply flat_map_app. Qed.

(** One question: its request is issued and one report is shown for
    it, whatever the backend answers. *)
Lemma enviar_pregunta_effects (env : Env) (examen_id : json) (p : PreguntaForm)
  (w : World) :
  exists ok w',
    enviar_pregunta env examen_id p w = (Ok tt, w')
    /\ sent w' = sent w ++ [pregunta_request env examen_id p]
    /\ informes (ui w') = informes (ui w) ++ [(ok, textoPregunta p)].
Proof.
  unfold enviar_pregunta, try_except, bind at 1.
  destruct (make_request_effects env "POST" (ENDPOINTS env "preguntas")
              (Some (get_headers env)) (Some (pregunta_payload examen_id p)) None w)
    as (v & extra & E & Hi).
  rewrite E.
  exists (truthy v).
  destruct (truthy v); eexists; (split; [reflexivity|]);
    unfold add_ui, add_sent, pregunta_request; cbn [sent ui st fst snd];
    (split; [reflexivity|]);
    rewrite !informes_app, Hi, app_nil_r; reflexivity.
Qed.

(** The loop over the questions: every question is tried, in the order
    of the form, and each gets a report of its own. *)
Lemma for_each_pregunta (env : Env) (examen_id : json)
  (preguntas : list PreguntaForm) (w : World) :
  exists oks w',
    for_each preguntas (enviar_pregunta env examen_id) w = (Ok tt, w')
    /\ sent w' = sent w ++ map (pregunta_request env examen_id) preguntas
    /\ length oks = length preguntas
    /\ informes (ui w') =
       informes (ui w) ++ combine oks (map textoPregunta preguntas).
Proof.
  revert w. induction preguntas as [|p rest IH]; intros w.
  - exists [], w. cbn. rewrite !app_nil_r. auto.
  - destruct (enviar_pregunta_effects env examen_id p w) as (ok & w1 & E1 & S1 & U1).
    destruct (IH w1) as (oks & w2 & E2 & S2 & L2 & U2).
    exists (ok :: oks), w2. cbn [for_each]. unfold bind. rewrite E1, E2.
    split; [reflexivity|]. split; [|split].
    + rewrite S2, S1, <- app_assoc. reflexivity.
    + cbn. now rewrite L2.
    + rewrite U2, U1, <- app_assoc. reflexivity.
Qed.

(** What [make_request] returns depends on the requests sent so far,
    not on what the page shows. *)
Lemma make_request_value (env : Env) (method endpoint : string)
  (headers : option (list (string * string))) (data params : option json)
  (w : World) :
  fst (make_request env method endpoint headers data params w) =
  fst (make_request env method endpoint headers data params
         {| sent := sent w; ui := [] |}).
Proof.
  rewrite !make_request_cases. cbn [sent].
  destruct (network env (sent w) _) as [msg|r]; [reflexivity|].
  destruct (error_status _); [reflexivity|].
  destruct (says_json r); [|reflexivity].
  destruct (String.eqb _ _); [reflexivity|].
  destruct (decode_json _ _); reflexivity.
Qed.

(** One question: its request is issued, and the report shown for it
    says whether that request was accepted. *)
Lemma enviar_pregunta_informe (env : Env) (examen_id : json) (p : PreguntaForm)
  (w : World) :
  exists w',
    enviar_pregunta env examen_id p w = (Ok tt, w')
    /\ sent w' = sent w ++ [pregunta_request env examen_id p]
    /\ informes (ui w') =
       informes (ui w)
       ++ [(aceptada env (sent w) (pregunta_payload examen_id p), textoPregunta p)].
Proof.
  unfold aceptada. rewrite <- make_request_value.
  unfold enviar_pregunta, try_except, bind at 1.
  destruct (make_request_effects env "POST" (ENDPOINTS env "preguntas")
              (Some (get_headers env)) (Some (pregunta_payload examen_id p)) None w)
    as (v & extra & E & Hi).
  rewrite E. cbn [fst].
  destruct (truthy v); eexists; (split; [reflexivity|]);
    unfold add_ui, add_sent, pregunta_request; cbn [sent ui st fst snd];
    (split; [reflexivity|]);
    rewrite !informes_app, Hi, app_nil_r; reflexivity.
Qed.

(** The loop over the questions: every question is tried, in the order
    of the form, and the report of each is that of its own request. *)
Lemma for_each_pregunta_informes (env : Env) (examen_id : json)
  (preguntas : list PreguntaForm) (w : World) :
  exists w',
    for_each preguntas (enviar_pregunta env examen_id) w = (Ok tt, w')
    /\ sent w' = sent w ++ map (pregunta_request env examen_id) preguntas
    /\ informes (ui w') =
       informes (ui w)
       ++ informes_de env (pregunta_payload examen_id) (sent w) preguntas.
Proof.
  revert w. induction preguntas as [|p rest IH]; intros w.
  - exists w. cbn. rewrite !app_nil_r. auto.
  - destruct (enviar_pregunta_informe env examen_id p w) as (w1 & E1 & S1 & U1).
    destruct (IH w1) as (w2 & E2 & S2 & U2).
    exists w2. cbn [for_each]. unfold bind. rewrite E1, E2.
    split; [reflexivity|]. split.
    + rewrite S2, S1, <- app_assoc. reflexivity.
    + rewrite U2, U1, S1, <- app_assoc. reflexivity.
Qed.

(** C5.  With an empty title, or with a first day that is not before
    the last, [crear_examen] shows the validation error and issues no
    request; when it issues one, the title is not empty and the first
    day is before the last; and with such a form the request that
    creates the exam is the first one issued. *)
Theorem C5_validation_before_network (env : Env) (titulo descripcion : string)
  (fecha_inicio fecha_fin : date) (preguntas : list PreguntaForm) (w : World) :
  let run := crear_examen env true titulo descripcion fecha_inicio fecha_fin preguntas w in
  (titulo = EmptyString \/ ~ date_before fecha_inicio fecha_fin ->
   exists msg,
     run = (Ok tt, {| sent := sent w; ui := ui w ++ [st_error [FLit msg]] |}))
  /\ (sent (snd run) <> sent w ->
      titulo <> EmptyString /\ date_before fecha_inicio fecha_fin)
  /\ (titulo <> EmptyString -> date_before fecha_inicio fecha_fin ->
      exists later,
        sent (snd run) =
        sent w ++ examen_request env titulo descripcion fecha_inicio fecha_fin :: later).
Proof.
  intros run.
  assert (Invalid : titulo = EmptyString \/ ~ date_before fecha_inicio fecha_fin ->
                    exists msg,
                      run = (Ok tt, {| sent := sent w;
                                       ui := ui w ++ [st_error [FLit msg]] |})).
  { intros H. unfold run, crear_examen.
    destruct (String.eqb_spec titulo EmptyString) as [->|Hn].
    - eexists; reflexivity.
    - destruct (date_ge fecha_inicio fecha_fin) eqn:G.
      + eexists; reflexivity.
      + apply date_ge_false_iff in G. destruct H; [congruence|contradiction]. }
  split; [exact Invalid|]. split.
  - intros Hs.
    destruct (String.eqb_spec titulo EmptyString) as [Ht|Ht].
    + destruct (Invalid (or_introl Ht)) as (msg & E). rewrite E in Hs. now elim Hs.
    + split; [exact Ht|].
      destruct (date_ge fecha_inicio fecha_fin) eqn:G.
      * assert (N : ~ date_before fecha_inicio fecha_fin).
        { rewrite <- date_ge_false_iff, G. discriminate. }
        destruct (Invalid (or_intror N)) as (msg & E). rewrite E in Hs. now elim Hs.
      * now apply date_ge_false_iff.
  - intros Ht Hd. unfold run, crear_examen.
    apply String.eqb_neq in Ht. apply date_ge_false_iff in Hd. rewrite Ht, Hd.
    unfold bind at 1.
    destruct (make_request_effects env "POST" (ENDPOINTS env "examenes")
                (Some (get_headers env))
                (Some (to_dict {| titulo := titulo; descripcion := descripcion;
                                  fechaInicio := fecha_inicio; fechaFin := fecha_fin;
                                  creadorId := 1; preguntasIds := [] |})) None w)
      as (v & extra & E & _).
    rewrite E. unfold try_except.
    destruct (truthy v) eqn:T.
    + unfold bind at 1, lift.
      destruct (get_default v "id" JNull) as [examen_id|e] eqn:G.
      * unfold bind at 1. cbn [st]. unfold bind at 1.
        destruct (for_each_pregunta env examen_id preguntas
                    {| sent := sent (add_ui (add_sent w (mk_request "POST"
                                 (build_url env (ENDPOINTS env "examenes"))
                                 (Some (get_headers env))
                                 (Some (to_dict {| titulo := titulo; descripcion := descripcion;
                                    fechaInicio := fecha_inicio; fechaFin := fecha_fin;
                                    creadorId := 1; preguntasIds := [] |})) None)) extra);
                       ui := ui (add_ui (add_sent w (mk_request "POST"
                                 (build_url env (ENDPOINTS env "examenes"))
                                 (Some (get_headers env))
                                 (Some (to_dict {| titulo := titulo; descripcion := descripcion;
                                    fechaInicio := fecha_inicio; fechaFin := fecha_fin;
                                    creadorId := 1; preguntasIds := [] |})) None)) extra)
                             ++ [st_success [FLit "✅ Examen creado con éxito. ID: ";
                                             FVal examen_id]] |})
          as (oks & w2 & E2 & S2 & _).
        rewrite E2. cbn [snd]. rewrite S2. cbn [sent add_ui add_sent].
        rewrite <- app_assoc. eexists; reflexivity.
      * assert (e = AttributeError "get") as ->.
        { destruct v; cbn in G; try congruence. destruct (sget _ _); discriminate. }
        unfold bind, st, st_rerun, raise. cbn [is_Exception].
        exists []. reflexivity.
    + exists []. reflexivity.
Qed.

Lemma C5_witness :
  let d := {| year := 2024; month := 5; day := 10 |} in
  exists msg,
    crear_examen (local_env [] (NetRaise "unreachable")) true "Parcial" "Tema 1" d d
      [] fresh =
    (Ok tt, {| sent := []; ui := [st_error [FLit msg]] |}).
Proof.
  intros d.
  refine (proj1 (C5_validation_before_network
                   (local_env [] (NetRaise "unreachable")) "Parcial" "Tema 1" d d
                   [] fresh) _).
  right. unfold date_before. simpl. lia.
Defined.

(** C4, as the code has it.  Let the form be valid and [result] be what
    the request that creates the exam returned.  When [result] is
    [None], or any value that counts as false, no request for a
    question is issued.  When it is a JSON object that is not empty,
    one request per question is issued, in the order of the form, each
    with the [id] of the object under [examenId], whatever the backend
    answers to the earlier ones; nothing else is sent, so nothing is
    undone; and one report per question is shown, in the same order,
    which says whether the request of that very question was
    accepted.  When it is any other value that counts as true, no
    request for a question is issued either. *)
Theorem C4_questions_tried_one_by_one (env : Env) (titulo descripcion : string)
  (fecha_inicio fecha_fin : date) (preguntas : list PreguntaForm)
  (w w1 : World) (result : json) :
  let run := crear_examen env true titulo descripcion fecha_inicio fecha_fin preguntas w in
  let req := examen_request env titulo descripcion fecha_inicio fecha_fin in
  titulo <> EmptyString ->
  date_before fecha_inicio fecha_fin ->
  make_request env "POST" (ENDPOINTS env "examenes") (Some (get_headers env))
    (req_json req) None w = (Ok result, w1) ->
  (truthy result = false ->
   run = (Ok tt, add_ui w1 [st_error [FLit "❌ Error al crear el examen"]])
   /\ sent (snd run) = sent w ++ [req])
  /\ (forall d, result = JObj d -> d <> [] ->
      let examen_id := match sget "id" d with Some x => x | None => JNull end in
      let cuerpo (p : PreguntaForm) :=
        JObj [("textoPregunta", JStr (textoPregunta p));
              ("tipoPregunta", JStr (tipoPregunta p));
              ("examenId", examen_id);
              ("puntos", JInt (puntos p))] in
      let peticion (p : PreguntaForm) :=
        mk_request "POST" (build_url env (ENDPOINTS env "preguntas"))
          (Some (get_headers env)) (Some (cuerpo p)) None in
      exists w' : World,
        run = (Ok tt, w')
        /\ sent w' = sent w ++ req :: map peticion preguntas
        /\ informes (ui w') =
           informes (ui w) ++ informes_de env cuerpo (sent w ++ [req]) preguntas)
  /\ (truthy result = true -> (forall d, result <> JObj d) ->
      sent (snd run) = sent w ++ [req]
      /\ informes (ui (snd run)) = informes (ui w)).
Proof.
  intros run req Ht Hd Hmk.
  destruct (make_request_effects env "POST" (ENDPOINTS env "examenes")
              (Some (get_headers env)) (req_json req) None w)
    as (v & extra & E & Hi).
  rewrite Hmk in E. injection E as -> ->.
  assert (Run : run =
            try_except
              (if truthy v then
                 examen_id <- lift (get_default v "id" JNull) ;;
                 st (st_success [FLit "✅ Examen creado con éxito. ID: "; FVal examen_id]) ;;
                 for_each preguntas (enviar_pregunta env examen_id)
               else st (st_error [FLit "❌ Error al crear el examen"]))
              is_Exception
              (fun e =>
                 st (st_error [FLit "⚠️ Error inesperado: "; FExc e]) ;;
                 st (st_write [FLit "Detalles del error:"]) ;;
                 st (st_write [FExc e]) ;;
                 if truthy v then
                   st (st_success [FLit "✅ Examen creado con éxito"]) ;;
                   st (st_json v) ;;
                   st_rerun
                 else
                   st (st_error [FLit "❌ Error al crear el examen"]) ;;
                   st (st_write [FLit "Respuesta del backend:"]) ;;
                   st (st_json v))
              (add_ui (add_sent w (mk_request "POST"
                                     (build_url env (ENDPOINTS env "examenes"))
                                     (Some (get_headers env)) (req_json req) None))
                 extra)).
  { unfold run, crear_examen.
    apply String.eqb_neq in Ht. apply date_ge_false_iff in Hd. rewrite Ht, Hd.
    unfold bind at 1. cbn [req_json req examen_request mk_request] in Hmk.
    rewrite Hmk. reflexivity. }
  split; [|split].
  - intros F. rewrite Run. unfold try_except. rewrite F. split; reflexivity.
  - intros d -> Hne examen_id cuerpo peticion. rewrite Run. unfold try_except.
    assert (T : truthy (JObj d) = true) by (destruct d; [congruence|reflexivity]).
    rewrite T. unfold bind at 1, lift.
    assert (G : get_default (JObj d) "id" JNull = Ok examen_id).
    { unfold examen_id. cbn. destruct (sget "id" d); reflexivity. }
    rewrite G. unfold bind at 1. cbn [st]. unfold bind at 1.
    match goal with
    | |- context [for_each preguntas _ ?W] =>
        destruct (for_each_pregunta_informes env examen_id preguntas W)
          as (w2 & E2 & S2 & U2)
    end.
    rewrite E2. exists w2. split; [reflexivity|]. split.
    + rewrite S2. cbn [sent add_ui add_sent]. rewrite <- app_assoc. reflexivity.
    + rewrite U2. cbn [ui sent add_ui add_sent]. rewrite !informes_app, Hi, app_nil_r.
      cbn [informes flat_map informe app]. rewrite app_nil_r. reflexivity.
  - intros T N. rewrite Run. unfold try_except. rewrite T.
    unfold bind at 1, lift.
    destruct v as [| | | | | |d]; try (exfalso; exact (N d eq_refl));
      cbn; rewrite ?informes_app, ?Hi, ?app_nil_r; (split; reflexivity).
Qed.

(** Three questions, the second refused by the backend: the exam is
    created, the three questions are tried, and the reports say that
    the first and the third were added and the second was not. *)
Lemma C4_witness :
  let env :=
    local_env [json_reply 201 "Created" ("{" ++ quoted "id" ++ ": 7}");
               json_reply 201 "Created" ("{" ++ quoted "id" ++ ": 31}");
               json_reply 400 "Bad Request" "malformed";
               json_reply 201 "Created" ("{" ++ quoted "id" ++ ": 33}")]
      (NetRaise "unreachable") in
  let q t := {| textoPregunta := t; tipoPregunta := "TEXTO_ABIERTO";
                opciones := []; puntos := 1 |} in
  let preguntas := [q "uno"; q "dos"; q "tres"] in
  let d1 := {| year := 2024; month := 5; day := 10 |} in
  let d2 := {| year := 2024; month := 5; day := 17 |} in
  let peticion t :=
    mk_request "POST" "http://localhost:5000/preguntas"
      (Some [("Authorization", "Bearer " ++ TOKEN env)%string])
      (Some (JObj [("textoPregunta", JStr t); ("tipoPregunta", JStr "TEXTO_ABIERTO");
                   ("examenId", JInt 7); ("puntos", JInt 1)])) None in
  exists w' : World,
    crear_examen env true "Parcial" "Tema 1" d1 d2 preguntas fresh = (Ok tt, w')
    /\ sent w' =
       [examen_request env "Parcial" "Tema 1" d1 d2;
        peticion "uno"; peticion "dos"; peticion "tres"]
    /\ informes (ui w') = [(true, "uno"); (false, "dos"); (true, "tres")].
Proof.
  intros env q preguntas d1 d2 peticion.
  destruct (proj1 (proj2 (C4_questions_tried_one_by_one env "Parcial" "Tema 1" d1 d2
                            preguntas fresh
                            {| sent := [examen_request env "Parcial" "Tema 1" d1 d2];
                               ui := [] |}
                            (JObj [("id", JInt 7)])
                            ltac:(discriminate)
                            ltac:(unfold date_before; simpl; lia)
                            ltac:(vm_compute; reflexivity)))
              [("id", JInt 7)] eq_refl ltac:(discriminate))
    as (w' & E & S & I).
  exists w'. split; [exact E|]. split.
  - rewrite S. vm_compute. reflexivity.
  - rewrite I. vm_compute. reflexivity.
Defined.

(** C4 as the specification words it fails.  The request that creates
    the exam succeeds, with status 201, and two questions are pending.
    When the body of the answer is the list [[7]], and when it is
    empty, the backend has created the exam and yet no question is
    tried: the only request sent is the one that creates the exam. *)
Lemma C4_counterexample :
  let env body :=
    local_env [json_reply 201 "Created" body]
      (json_reply 201 "Created" ("{" ++ quoted "id" ++ ": 31}")) in
  let q t := {| textoPregunta := t; tipoPregunta := "TEXTO_ABIERTO";
                opciones := []; puntos := 1 |} in
  let d1 := {| year := 2024; month := 5; day := 10 |} in
  let d2 := {| year := 2024; month := 5; day := 17 |} in
  let run body :=
    crear_examen (env body) true "Parcial" "Tema 1" d1 d2 [q "uno"; q "dos"] fresh in
  make_request (env "[7]") "POST" "examenes" (Some (get_headers (env "[7]")))
    (req_json (examen_request (env "[7]") "Parcial" "Tema 1" d1 d2)) None fresh
  = (Ok (JArr [JInt 7]),
     {| sent := [examen_request (env "[7]") "Parcial" "Tema 1" d1 d2]; ui := [] |})
  /\ sent (snd (run "[7]")) = [examen_request (env "[7]") "Parcial" "Tema 1" d1 d2]
  /\ informes (ui (snd (run "[7]"))) = []
  /\ sent (snd (run EmptyString))
     = [examen_request (env EmptyString) "Parcial" "Tema 1" d1 d2]
  /\ informes (ui (snd (run EmptyString))) = [].
Proof.
  intros env q d1 d2 run. repeat split; vm_compute; reflexivity.
Qed.

(** The same run, computed: the reports say that the first and the
    third question were added and the second was not. *)
Lemma crear_examen_second_question_refused :
  let env :=
    local_env [json_reply 201 "Created" ("{" ++ quoted "id" ++ ": 7}");
               json_reply 201 "Created" ("{" ++ quoted "id" ++ ": 31}");
               json_reply 400 "Bad Request" "malformed";
               json_reply 201 "Created" ("{" ++ quoted "id" ++ ": 33}")]
      (NetRaise "unreachable") in
  let q t := {| textoPregunta := t; tipoPregunta := "TEXTO_ABIERTO";
                opciones := []; puntos := 1 |} in
  let d1 := {| year := 2024; month := 5; day := 10 |} in
  let d2 := {| year := 2024; month := 5; day := 17 |} in
  let w' := snd (crear_examen env true "Parcial" "Tema 1" d1 d2
                   [q "uno"; q "dos"; q "tres"] fresh) in
  informes (ui w') = [(true, "uno"); (false, "dos"); (true, "tres")]
  /\ length (sent w') = 4%nat.
Proof. vm_compute. split; reflexivity. Qed.

(** ** Dictionaries *)

Section DictFacts.

Context {K V : Type}.
Variable key_eqb : K -> K -> bool.

Lemma dict_get_set (k : K) (v : V) (d : list (K * V)) :
  key_eqb k k = true ->
  dict_get key_eqb k (dict_set key_eqb k v d) = Some v.
Proof.
  intros R. induction d as [|[k' v'] r IH]; cbn.
  - now rewrite R.
  - destruct (key_eqb k' k) eqn:E; cbn; rewrite E; [reflexivity|exact IH].
Qed.

Lemma dict_set_twice (k : K) (v1 v2 : V) (d : list (K * V)) :
  key_eqb k k = true ->
  dict_set key_eqb k v2 (dict_set key_eqb k v1 d) = dict_set key_eqb k v2 d.
Proof.
  intros R. induction d as [|[k' v'] r IH]; cbn.
  - now rewrite R.
  - destruct (key_eqb k' k) eqn:E; cbn; rewrite E; [reflexivity|now rewrite IH].
Qed.

(** Setting a key keeps the keys there are, in their order; a key equal
    to none of them goes to the end. *)
Lemma dict_keys_set (k : K) (v : V) (d : list (K * V)) :
  dict_keys (dict_set key_eqb k v d) = dict_keys d
  \/ (dict_keys (dict_set key_eqb k v d) = dict_keys d ++ [k]
      /\ Forall (fun a => key_eqb a k = false) (dict_keys d)).
Proof.
  unfold dict_keys.
  induction d as [|[k' v'] r IH]; cbn.
  - right. split; [reflexivity|constructor].
  - destruct (key_eqb k' k) eqn:E; cbn; [left; reflexivity|].
    destruct IH as [IH|[IH N]]; [left; now rewrite IH|right].
    split; [now rewrite IH|]. constructor; assumption.
Qed.

(** A key that is not the one set keeps its value. *)
Lemma dict_get_set_other (k k' : K) (v : V) (d : list (K * V)) :
  key_eqb k' k = false ->
  (forall a, key_eqb a k' = true -> key_eqb a k = false) ->
  dict_get key_eqb k (dict_set key_eqb k' v d) = dict_get key_eqb k d.
Proof.
  intros N T. induction d as [|[a x] r IH]; cbn.
  - now rewrite N.
  - destruct (key_eqb a k') eqn:E'; cbn.
    + now rewrite (T a E').
    + destruct (key_eqb a k); [reflexivity|exact IH].
Qed.

End DictFacts.

Lemma pykey_eqb_eq (x y : pykey) : pykey_eqb x y = true <-> x = y.
Proof.
  destruct x, y; cbn; split; intros H; try discriminate H; try reflexivity.
  - apply andb_prop in H as [H1 H2]. apply Z.eqb_eq in H1, H2. now subst.
  - injection H as -> ->. now rewrite !Z.eqb_refl.
  - apply Bool.eqb_prop in H. now subst.
  - injection H as ->. apply Bool.eqb_reflx.
  - apply String.eqb_eq in H. now subst.
  - injection H as ->. apply String.eqb_refl.
Qed.

(** Two values are one key when they have the same value as keys. *)
Lemma py_key_eqb_iff (a b : json) :
  py_key_eqb a b = true <-> exists x, key_of a = Some x /\ key_of b = Some x.
Proof.
  unfold py_key_eqb. destruct (key_of a) as [x|], (key_of b) as [y|]; split; intros H;
    try discriminate H; try (destruct H as (z & H1 & H2); discriminate).
  - apply pykey_eqb_eq in H. subst. eauto.
  - destruct H as (z & [= ->] & [= ->]). now apply pykey_eqb_eq.
Qed.

Lemma py_key_eqb_refl (q : json) : key_of q <> None -> py_key_eqb q q = true.
Proof.
  intros H. apply py_key_eqb_iff. destruct (key_of q) as [x|]; [eauto|congruence].
Qed.

Lemma py_key_eqb_other (a k' k : json) :
  py_key_eqb k' k = false -> py_key_eqb a k' = true -> py_key_eqb a k = false.
Proof.
  intros N E. destruct (py_key_eqb a k) eqn:E2; [|reflexivity].
  apply py_key_eqb_iff in E as (x & A & B), E2 as (y & A' & C).
  rewrite A in A'. injection A' as <-.
  assert (T : py_key_eqb k' k = true) by (apply py_key_eqb_iff; eauto).
  congruence.
Qed.

(** ** The answers of a session *)

(** Recording an answer for a question that already has one puts the
    new answer in the place of the old: the mapping is the one that
    recording the later answer alone gives, and it holds the later
    answer for the question.  The identifier is any key but a NaN. *)
Lemma record_answer_twice (q : json) (r1 r2 : Respuesta)
  (respuestas m1 m2 : Respuestas) :
  key_of q <> None ->
  record_answer q r1 respuestas = Ok m1 ->
  record_answer q r2 m1 = Ok m2 ->
  record_answer q r2 respuestas = Ok m2
  /\ dict_get py_key_eqb q m2 = Some r2.
Proof.
  intros Hq. apply py_key_eqb_refl in Hq.
  unfold record_answer. destruct (hashable q); [|discriminate].
  intros [= <-] [= <-].
  rewrite (dict_set_twice py_key_eqb) by exact Hq.
  split; [reflexivity|now apply dict_get_set].
Qed.

(** C9, at the input where the code leaves it.  Question 1 has the
    options A (10) and B (11); B is answered first and A after it.
    Written to the mapping, the later answer takes the place of the
    earlier one, also when the identifier comes as [1.0] or [True],
    which are the same key: the mapping holds one answer for the
    question.  The submission the claim describes selects option 10
    alone.  The code gives no submission: the search of lines 502 to
    505 goes through the questions under the key [texto], which their
    records do not have, and the build raises [KeyError]; and on the
    page the answer is not recorded at all, since the call of
    [st.radio] at line 461 raises [TypeError]. *)
Theorem C9_later_answer_is_not_submitted :
  let q1 := pregunta_seleccion 1 "Capital de Francia" [opcion 10 "A"; opcion 11 "B"] in
  let preguntas := [q1; pregunta_abierta 2 "Explica"] in
  rbind (record_answer (JInt 1) (seleccion "B") [])
    (record_answer (JInt 1) (seleccion "A"))
  = Ok [(JInt 1, seleccion "A")]
  /\ record_answer (JFloat (FDec false 10 (-1))) (seleccion "A") [(JInt 1, seleccion "B")]
     = Ok [(JInt 1, seleccion "A")]
  /\ record_answer (JBool true) (seleccion "A") [(JInt 1, seleccion "B")]
     = Ok [(JInt 1, seleccion "A")]
  /\ spec_resolve_option preguntas (JInt 1) "A" = inl 10
  /\ build_submission 7 [(JInt 1, seleccion "A")] preguntas = Raise (KeyError "texto")
  /\ mostrar_pregunta (fun _ => Some "A") [(JInt 1, seleccion "B")] q1 = Raise TypeError.
Proof.
  intros q1 preguntas. repeat split; vm_compute; reflexivity.
Qed.

(** ** The submission *)

Lemma rfold_app {A B : Type} (f : B -> A -> result B) (l1 l2 : list A) (acc : B) :
  rfold f (l1 ++ l2) acc = rbind (rfold f l1 acc) (rfold f l2).
Proof.
  revert acc. induction l1 as [|x r IH]; intros acc; cbn; [reflexivity|].
  destruct (f acc x); cbn; [apply IH|reflexivity].
Qed.

Lemma rbind_Ok {A B : Type} (r : result A) (k : A -> result B) (b : B) :
  rbind r k = Ok b -> exists a, r = Ok a /\ k a = Ok b.
Proof. destruct r; cbn; [eauto|discriminate]. Qed.

Lemma not_both_types (item : json * Respuesta) :
  es_seleccion_unica item = true -> es_texto_abierto item = false.
Proof.
  unfold es_seleccion_unica, es_texto_abierto. intros H.
  apply String.eqb_eq in H. rewrite H. reflexivity.
Qed.

(** What one turn of the loop does to the payload. *)
Lemma procesar_respuesta_Ok (preguntas : list json) (acc p : Payload)
  (item : json * Respuesta) :
  procesar_respuesta preguntas acc item = Ok p ->
  examenId p = examenId acc
  /\ (if es_seleccion_unica item then
        exists id,
          next_opcion (respuesta (snd item)) preguntas = Ok id
          /\ opcionesSeleccionadas p = opcionesSeleccionadas acc ++ [id]
          /\ respuestasTexto p = respuestasTexto acc
      else if es_texto_abierto item then
        exists n,
          py_int (fst item) = Ok n
          /\ opcionesSeleccionadas p = opcionesSeleccionadas acc
          /\ respuestasTexto p = Some (n, respuesta (snd item))
      else p = acc).
Proof.
  destruct item as [q r]. unfold procesar_respuesta, es_seleccion_unica, es_texto_abierto.
  cbn [fst snd].
  destruct (String.eqb (tipo r) "SELECCION_UNICA").
  - intros H. apply rbind_Ok in H as (id & E & [= <-]). cbn. eauto.
  - destruct (String.eqb (tipo r) "TEXTO_ABIERTO").
    + intros H. apply rbind_Ok in H as (n & E & [= <-]). cbn. eauto.
    + intros [= <-]. auto.
Qed.

(** What the whole loop does: the exam is kept, the identifiers found
    are appended one per single-choice answer, in order. *)
Lemma rfold_procesar_Ok (preguntas : list json) (l : Respuestas) :
  forall acc p,
    rfold (procesar_respuesta preguntas) l acc = Ok p ->
    examenId p = examenId acc
    /\ exists ids,
         opcionesSeleccionadas p = opcionesSeleccionadas acc ++ ids
         /\ Forall2 (fun item id => next_opcion (respuesta (snd item)) preguntas = Ok id)
              (filter es_seleccion_unica l) ids.
Proof.
  induction l as [|item r IH]; intros acc p H; cbn in H.
  - injection H as <-. split; [reflexivity|]. exists []. rewrite app_nil_r. split; constructor.
  - apply rbind_Ok in H as (a & E & H).
    apply procesar_respuesta_Ok in E as (Ex & E).
    apply IH in H as (Ex' & ids & O & F).
    split; [congruence|]. cbn [filter].
    destruct (es_seleccion_unica item).
    + destruct E as (id & N & O1 & _). exists (id :: ids).
      split; [rewrite O, O1, <- app_assoc; reflexivity|]. constructor; assumption.
    + exists ids. split; [|exact F]. rewrite O. f_equal.
      destruct (es_texto_abierto item).
      * destruct E as (n & _ & O1 & _). exact O1.
      * now subst.
Qed.

(** Answers that are not open text leave [respuestasTexto] as it is. *)
Lemma rfold_procesar_no_text (preguntas : list json) (l : Respuestas) :
  Forall (fun it => tipo (snd it) <> "TEXTO_ABIERTO") l ->
  forall acc p,
    rfold (procesar_respuesta preguntas) l acc = Ok p ->
    respuestasTexto p = respuestasTexto acc.
Proof.
  induction 1 as [|item r Hn _ IH]; intros acc p H; cbn in H.
  - now injection H as <-.
  - apply rbind_Ok in H as (a & E & H).
    apply procesar_respuesta_Ok in E as (_ & E).
    rewrite (IH _ _ H).
    destruct (es_seleccion_unica item).
    + destruct E as (id & _ & _ & T). exact T.
    + unfold es_texto_abierto in E. apply String.eqb_neq in Hn. rewrite Hn in E. now subst.
Qed.

Lemma py_int_not_rerun (v : json) : py_int v <> Raise RerunException.
Proof.
  destruct v as [| | | [| |n m e] | s | |]; cbn; try discriminate.
  - destruct (to_double m e) as [[q k]|]; discriminate.
  - destruct (int_of_str s); discriminate.
Qed.

Lemma getitem_not_rerun (v : json) (k : string) : getitem v k <> Raise RerunException.
Proof. destruct v; cbn; try discriminate. destruct (sget k d); discriminate. Qed.

Lemma next_opcion_not_rerun (label : string) (candidatos : list json) :
  next_opcion label candidatos <> Raise RerunException.
Proof.
  induction candidatos as [|opt r IH]; cbn; [discriminate|].
  pose proof (getitem_not_rerun opt "texto") as G.
  destruct (getitem opt "texto") as [t|e]; cbn; [|congruence].
  destruct (eq_str t label); [|exact IH].
  pose proof (getitem_not_rerun opt "id") as G'.
  destruct (getitem opt "id") as [i|e]; cbn; [apply py_int_not_rerun|congruence].
Qed.

(** A failure of the build is an [Exception]: the handler of
    [enviar_examen] takes it. *)
Lemma build_submission_raises_Exception (examen_id : Z) (respuestas : Respuestas)
  (preguntas : list json) (e : PyExc) :
  build_submission examen_id respuestas preguntas = Raise e -> is_Exception e = true.
Proof.
  unfold build_submission. generalize {| examenId := examen_id; opcionesSeleccionadas := [];
                                         respuestasTexto := None |}.
  induction respuestas as [|[q r] rest IH]; intros acc; cbn; [discriminate|].
  destruct (String.eqb (tipo r) "SELECCION_UNICA").
  - pose proof (next_opcion_not_rerun (respuesta r) preguntas) as N.
    destruct (next_opcion (respuesta r) preguntas) as [id|e']; cbn; [apply IH|].
    intros [= <-]. destruct e'; try reflexivity. congruence.
  - destruct (String.eqb (tipo r) "TEXTO_ABIERTO").
    + pose proof (py_int_not_rerun q) as N.
      destruct (py_int q) as [n|e']; cbn; [apply IH|].
      intros [= <-]. destruct e'; try reflexivity. congruence.
    + cbn. apply IH.
Qed.

(** When the build succeeds one request is posted, with the payload
    built; when it fails nothing is. *)
Lemma enviar_examen_sent (env : Env) (examen_id : Z) (respuestas : Respuestas)
  (preguntas : list json) (w : World) :
  match build_submission examen_id respuestas preguntas with
  | Ok p =>
      sent (snd (enviar_examen env examen_id respuestas preguntas w)) =
      sent w ++ [results_request env p]
  | Raise e =>
      enviar_examen env examen_id respuestas preguntas w =
      (Ok tt, add_ui w [st_error [FLit "❌ Error al enviar el examen: "; FExc e]])
  end.
Proof.
  unfold enviar_examen, try_except, bind at 1, lift.
  destruct (build_submission examen_id respuestas preguntas) as [p|e] eqn:B.
  - unfold bind at 1, requests_request. fold (results_request env p).
    unfold results_request at 1, mk_request.
    destruct (network env (sent w) _) as [msg|r]; [reflexivity|].
    destruct (status_code r =? 201); reflexivity.
  - unfold bind. cbv beta iota.
    rewrite (build_submission_raises_Exception _ _ _ _ B). reflexivity.
Qed.

(** C10.  Let the build succeed.  If some answer is open text, the
    payload holds under [respuestasTexto] one record, that of the open
    text answer met last in the mapping, whatever open text answers
    come before it; if no answer is open text, the payload has no
    [respuestasTexto] at all.  That payload is what is posted.  The
    build does succeed when every answer is open text and the
    identifiers are integers. *)
Theorem C10_only_last_open_text_is_sent (env : Env) (examen_id : Z)
  (respuestas : Respuestas) (preguntas : list json) :
  (forall p,
     build_submission examen_id respuestas preguntas = Ok p ->
     (forall pre q r post,
        respuestas = pre ++ (q, r) :: post ->
        tipo r = "TEXTO_ABIERTO" ->
        Forall (fun it => tipo (snd it) <> "TEXTO_ABIERTO") post ->
        exists n,
          py_int q = Ok n
          /\ payload_json p =
             JObj [("examenId", JInt examen_id);
                   ("opcionesSeleccionadas", JArr (map JInt (opcionesSeleccionadas p)));
                   ("respuestasTexto",
                    JObj [("preguntaId", JInt n); ("respuesta", JStr (respuesta r))])])
     /\ (Forall (fun it => tipo (snd it) <> "TEXTO_ABIERTO") respuestas ->
         payload_json p =
         JObj [("examenId", JInt examen_id);
               ("opcionesSeleccionadas", JArr (map JInt (opcionesSeleccionadas p)))])
     /\ (forall w,
           sent (snd (enviar_examen env examen_id respuestas preguntas w)) =
           sent w ++ [results_request env p]))
  /\ (Forall (fun it => tipo (snd it) = "TEXTO_ABIERTO" /\ exists n, fst it = JInt n)
        respuestas ->
      exists p,
        build_submission examen_id respuestas preguntas = Ok p
        /\ opcionesSeleccionadas p = []).
Proof.
  split.
  - intros p B.
    assert (Ex : examenId p = examen_id).
    { apply rfold_procesar_Ok in B as (E & _). exact E. }
    split; [|split].
    + intros pre q r post -> Ht Hpost.
      unfold build_submission in B. rewrite rfold_app in B.
      apply rbind_Ok in B as (a & _ & B). cbn [rfold] in B.
      apply rbind_Ok in B as (b & E & B).
      apply procesar_respuesta_Ok in E as (_ & E).
      unfold es_seleccion_unica, es_texto_abierto in E. cbn [fst snd] in E.
      rewrite Ht in E. cbn in E. destruct E as (n & I & _ & T).
      exists n. split; [exact I|].
      apply (rfold_procesar_no_text _ _ Hpost) in B.
      unfold payload_json. rewrite B, T, Ex. reflexivity.
    + intros Hn. apply (rfold_procesar_no_text _ _ Hn) in B. cbn in B.
      unfold payload_json. rewrite B, Ex. reflexivity.
    + intros w. pose proof (enviar_examen_sent env examen_id respuestas preguntas w) as S.
      rewrite B in S. exact S.
  - unfold build_submission.
    assert (G : forall acc,
              Forall (fun it => tipo (snd it) = "TEXTO_ABIERTO" /\ exists n, fst it = JInt n)
                respuestas ->
              exists p, rfold (procesar_respuesta preguntas) respuestas acc = Ok p
                        /\ opcionesSeleccionadas p = opcionesSeleccionadas acc).
    { induction respuestas as [|[q r] rest IH]; intros acc H.
      - exists acc. split; reflexivity.
      - inversion H as [|x l [Ht (n & Hq)] Hrest]; subst. cbn in Ht, Hq. subst q.
        cbn. rewrite Ht. cbn.
        destruct (IH {| examenId := examenId acc;
                        opcionesSeleccionadas := opcionesSeleccionadas acc;
                        respuestasTexto := Some (n, respuesta r) |} Hrest)
          as (p & E & O).
        exists p. split; [exact E|exact O]. }
    intros H.
    exact (G {| examenId := examen_id; opcionesSeleccionadas := [];
                respuestasTexto := None |} H).
Qed.

(** Two open text answers: only the second is in the payload. *)
Lemma C10_witness :
  let respuestas := [(JInt 1, texto_abierto "uno"); (JInt 2, texto_abierto "dos")] in
  build_submission 7 respuestas [pregunta_abierta 1 "a"; pregunta_abierta 2 "b"] =
    Ok {| examenId := 7; opcionesSeleccionadas := [];
          respuestasTexto := Some (2, "dos") |}
  /\ exists n,
       py_int (JInt 2) = Ok n
       /\ payload_json {| examenId := 7; opcionesSeleccionadas := [];
                          respuestasTexto := Some (2, "dos") |} =
          JObj [("examenId", JInt 7);
                ("opcionesSeleccionadas", JArr []);
                ("respuestasTexto",
                 JObj [("preguntaId", JInt n); ("respuesta", JStr "dos")])].
Proof.
  intros respuestas. split; [reflexivity|].
  exact (proj1 (proj1 (C10_only_last_open_text_is_sent
                         (local_env [] (NetRaise "unreachable")) 7 respuestas
                         [pregunta_abierta 1 "a"; pregunta_abierta 2 "b"])
                  _ eq_refl)
           [(JInt 1, texto_abierto "uno")] (JInt 2) (texto_abierto "dos") []
           eq_refl eq_refl (Forall_nil _)).
Defined.

(** ** Resolving a chosen label *)


(** ** Further checks *)

(** A question of type [TEXTO_ABIERTO] is shown twice, with another
    text the second time.  The mapping holds the later text only. *)
Lemma mostrar_preguntas_twice :
  let preguntas := [pregunta_abierta 2 "Explica"; pregunta_abierta 3 "Resume"] in
  let primera (k : json) := if py_key_eqb k (JInt 2) then Some "hello" else Some "uno" in
  let segunda (k : json) := if py_key_eqb k (JInt 2) then Some "bye" else Some "uno" in
  rbind (mostrar_preguntas primera preguntas []) (mostrar_preguntas segunda preguntas)
  = Ok [(JInt 2, texto_abierto "bye"); (JInt 3, texto_abierto "uno")].
Proof. vm_compute. reflexivity. Qed.

(** A text with nothing in it records no answer. *)
Lemma mostrar_pregunta_empty_text (respuestas : Respuestas) :
  mostrar_pregunta (fun _ => Some EmptyString) respuestas (pregunta_abierta 2 "Explica")
  = Ok respuestas.
Proof. reflexivity. Qed.

(* ================================================================== *)
(** * Further properties *)

(** ** The API client *)

(** X1.  Whatever the backend does, a call of [make_request] issues
    exactly one request, the one it was asked for, and never a second
    one; it shows [st.error] messages only, four at most, and none at
    all when it returns a value other than [None]. *)
Theorem X1_one_request_no_retry (env : Env) (method endpoint : string)
  (headers : option (list (string * string))) (data params : option json)
  (w : World) :
  exists v extra,
    make_request env method endpoint headers data params w =
    (Ok v,
     {| sent := sent w ++ [mk_request method (build_url env endpoint) headers data params];
        ui := ui w ++ extra |})
    /\ (length extra <= 4)%nat
    /\ forallb is_st_error extra = true
    /\ (v <> JNull -> extra = []).
Proof.
  rewrite make_request_cases.
  destruct (network env (sent w) _) as [msg|r].
  - eexists _, _. split; [reflexivity|]. cbn. repeat split; try lia. congruence.
  - destruct (error_status _).
    + eexists _, _. split; [reflexivity|]. cbn. repeat split; try lia. congruence.
    + destruct (says_json r).
      * destruct (String.eqb _ _).
        -- exists (JArr []), []. split; [unfold add_sent; cbn [sent ui]; now rewrite app_nil_r|]. cbn. repeat split; lia.
        -- destruct (decode_json _ _) as [v|e].
           ++ exists v, []. split; [unfold add_sent; cbn [sent ui]; now rewrite app_nil_r|]. cbn. repeat split; lia.
           ++ eexists _, _. split; [reflexivity|]. cbn. repeat split; try lia. congruence.
      * eexists _, _. split; [reflexivity|]. cbn. repeat split; try lia. congruence.
Qed.

Lemma lower_app (a b : string) :
  PyStr.lower (a ++ b) = (PyStr.lower a ++ PyStr.lower b)%string.
Proof. induction a as [|c a IH]; cbn; [reflexivity|now rewrite IH]. Qed.

Lemma prefix_app (a b : string) : String.prefix a (a ++ b) = true.
Proof.
  induction a as [|c a IH]; cbn; [now destruct b|].
  destruct (Ascii.ascii_dec c c); [exact IH|congruence].
Qed.

Lemma contains_app (sub pre post : string) :
  PyStr.contains sub (pre ++ sub ++ post) = true.
Proof.
  induction pre as [|c pre IH].
  - cbn [append]. destruct (sub ++ post)%string eqn:E;
      cbn [PyStr.contains]; rewrite <- E, prefix_app; reflexivity.
  - cbn [append PyStr.contains]. rewrite IH. apply orb_true_r.
Qed.

(** X2.  The content type is matched without regard to letter case and
    wherever it stands in the header.  When the header holds
    [application/json] in any mix of cases, with anything before and
    after it, [make_request] decodes the body: it returns the empty
    list for an empty body and the decoded value for a body that
    decodes, and shows nothing.  A response with no [content-type]
    header at all is never decoded, whatever its body. *)
Theorem X2_content_type_any_case (env : Env) (method endpoint : string)
  (headers : option (list (string * string))) (data params : option json)
  (w : World) (r : Response) :
  let req := mk_request method (build_url env endpoint) headers data params in
  network env (sent w) req = NetResponse r ->
  ~ (400 <= status_code r < 600) ->
  (forall pre mid post,
     content_type r = Some (pre ++ mid ++ post)%string ->
     PyStr.lower mid = "application/json" ->
     (text r = EmptyString ->
      make_request env method endpoint headers data params w =
      (Ok (JArr []), {| sent := sent w ++ [req]; ui := ui w |}))
     /\ (forall v, text r <> EmptyString -> decode_json (text r) 0 = Ok v ->
         make_request env method endpoint headers data params w =
         (Ok v, {| sent := sent w ++ [req]; ui := ui w |})))
  /\ (content_type r = None ->
      make_request env method endpoint headers data params w =
      (Ok JNull,
       {| sent := sent w ++ [req];
          ui := ui w ++
                [st_error [FLit "❌ La API no devolvió JSON válido. Tipo de contenido: ";
                           FStr EmptyString];
                 st_error [FLit "Datos recibidos (primeros 500 caracteres): ";
                           FStr (PyStr.slice_to 500 (text r)); FLit "..."];
                 st_error [FLit "URL de la API: "; FStr (build_url env endpoint)]] |})).
Proof.
  intros req N S. apply error_status_false_iff in S.
  rewrite make_request_cases. fold req. rewrite N, S. split.
  - intros pre mid post H L.
    assert (J : says_json r = true).
    { unfold says_json, header_or_empty. rewrite H.
      rewrite !lower_app, L. apply contains_app. }
    rewrite J. split.
    + intros ->. reflexivity.
    + intros v Ht D. apply String.eqb_neq in Ht. rewrite Ht, D. reflexivity.
  - intros H. unfold says_json, header_or_empty, content_type_report, header_or_empty.
    rewrite H. reflexivity.
Qed.

(** A header in capitals, with a character set after it. *)
Lemma X2_witness :
  let r := {| status_code := 200; reason := "OK"; resp_url := "u";
              content_type := Some "Application/JSON; charset=UTF-8";
              text := "[1]" |} in
  make_request (local_env [] (NetResponse r)) "GET" "examenes" None None None fresh =
  (Ok (JArr [JInt 1]),
   {| sent := [mk_request "GET" "http://localhost:5000/examenes" None None None];
      ui := [] |}).
Proof.
  intros r.
  exact (proj2 (proj1 (X2_content_type_any_case (local_env [] (NetResponse r))
                         "GET" "examenes" None None None fresh r
                         eq_refl ltac:(simpl; lia))
                  EmptyString "Application/JSON" "; charset=UTF-8" eq_refl eq_refl)
           (JArr [JInt 1]) ltac:(discriminate) eq_refl).
Defined.

(** X3.  [make_request] returns [None] without showing anything exactly
    when the response passed [raise_for_status], was taken for JSON and
    its body, not empty, decodes to [null]: that one answer cannot be
    told from a failure by its value, and no message tells it either. *)
Theorem X3_silent_None_iff_null_body (env : Env) (method endpoint : string)
  (headers : option (list (string * string))) (data params : option json)
  (w : World) :
  let req := mk_request method (build_url env endpoint) headers data params in
  make_request env method endpoint headers data params w = (Ok JNull, add_sent w req)
  <->
  exists r,
    network env (sent w) req = NetResponse r
    /\ ~ (400 <= status_code r < 600)
    /\ says_json r = true
    /\ text r <> EmptyString
    /\ decode_json (text r) 0 = Ok JNull.
Proof.
  intros req.
  assert (No : forall c cs, (Ok JNull, add_ui (add_sent w req) (c :: cs))
                            <> (Ok JNull, add_sent w req)).
  { intros c cs H. injection H as H. apply (f_equal (@length _)) in H.
    rewrite length_app in H. cbn in H. lia. }
  rewrite make_request_cases. fold req. split.
  - destruct (network env (sent w) req) as [msg|r]; [intros H; now apply No in H|].
    destruct (error_status (status_code r)) eqn:S; [intros H; now apply No in H|].
    destruct (says_json r) eqn:J; [|intros H; now apply No in H].
    destruct (String.eqb_spec (text r) EmptyString) as [T|T]; [discriminate|].
    destruct (decode_json (text r) 0) as [v|e] eqn:D; [|intros H; now apply No in H].
    intros [= ->]. exists r. apply error_status_false_iff in S. auto.
  - intros (r & N & S & J & T & D). rewrite N.
    apply error_status_false_iff in S. apply String.eqb_neq in T.
    now rewrite S, J, T, D.
Qed.

Lemma X3_witness :
  make_request (local_env [] (json_reply 200 "OK" "null"))
    "GET" "examenes" None None None fresh =
  (Ok JNull,
   {| sent := [mk_request "GET" "http://localhost:5000/examenes" None None None];
      ui := [] |}).
Proof.
  refine (proj2 (X3_silent_None_iff_null_body
                   (local_env [] (json_reply 200 "OK" "null"))
                   "GET" "examenes" None None None fresh) _).
  eexists. split; [reflexivity|].
  split; [simpl; lia|]. split; [reflexivity|]. split; [discriminate|reflexivity].
Defined.

(** ** Exam creation *)

(** Every way [crear_examen] can go. *)
Lemma crear_examen_cases (env : Env) (submitted : bool) (titulo descripcion : string)
  (fecha_inicio fecha_fin : date) (preguntas : list PreguntaForm) (w : World) :
  crear_examen env submitted titulo descripcion fecha_inicio fecha_fin preguntas w =
  if negb submitted then (Ok tt, w)
  else if String.eqb titulo EmptyString then
    (Ok tt, add_ui w [st_error [FLit "El título es obligatorio"]])
  else if date_ge fecha_inicio fecha_fin then
    (Ok tt, add_ui w [st_error [FLit "La fecha de inicio debe ser anterior a la de fin"]])
  else
    match
      make_request env "POST" (ENDPOINTS env "examenes") (Some (get_headers env))
        (req_json (examen_request env titulo descripcion fecha_inicio fecha_fin)) None w
    with
    | (Ok v, w1) =>
        if truthy v then
          match v with
          | JObj d =>
              let examen_id := match sget "id" d with Some x => x | None => JNull end in
              for_each preguntas (enviar_pregunta env examen_id)
                (add_ui w1 [st_success [FLit "✅ Examen creado con éxito. ID: ";
                                        FVal examen_id]])
          | _ =>
              (Raise RerunException,
               add_ui w1
                 [st_error [FLit "⚠️ Error inesperado: "; FExc (AttributeError "get")];
                  st_write [FLit "Detalles del error:"];
                  st_write [FExc (AttributeError "get")];
                  st_success [FLit "✅ Examen creado con éxito"];
                  st_json v])
          end
        else (Ok tt, add_ui w1 [st_error [FLit "❌ Error al crear el examen"]])
    | (Raise e, w1) => (Raise e, w1)
    end.
Proof.
  unfold crear_examen. destruct submitted; [|reflexivity]. cbn [negb].
  destruct (String.eqb titulo EmptyString); [reflexivity|].
  destruct (date_ge fecha_inicio fecha_fin); [reflexivity|].
  unfold bind at 1. cbn [req_json examen_request mk_request].
  destruct (make_request _ _ _ _ _ _ w) as [[v|e] w1]; [|reflexivity].
  unfold try_except.
  destruct (truthy v) eqn:T; [|reflexivity].
  assert (Other : (forall d, v <> JObj d) ->
            get_default v "id" JNull = Raise (AttributeError "get")).
  { intros H. destruct v as [| | | | | |d0]; try reflexivity. now elim (H d0). }
  destruct v as [| b | z | f | s | l | d];
    try discriminate T;
    try (unfold bind at 1, lift; rewrite Other by discriminate;
         cbn [is_Exception]; unfold bind, st, st_rerun, raise;
         unfold add_ui; cbn [sent ui]; repeat rewrite <- app_assoc; reflexivity).
  unfold bind at 1, lift. cbn [get_default].
  destruct (sget "id" d) as [x|]; cbv zeta;
    unfold bind at 1; cbn [st]; unfold bind at 1;
    match goal with
    | |- context [for_each preguntas (enviar_pregunta env ?i) ?W] =>
        destruct (for_each_pregunta env i preguntas W) as (oks & w2 & E & _);
        unfold add_ui; cbn [sent ui]; rewrite E; reflexivity
    end.
Qed.

(** X4.  When the backend answers the request that creates the exam
    with a success status and a JSON body that is empty or decodes to
    a value that counts as false ([null], [0], an empty string, list
    or object), [crear_examen] reports the creation as failed with the
    bare message and sends no question. *)
Theorem X4_falsy_body_is_failure (env : Env) (titulo descripcion : string)
  (fecha_inicio fecha_fin : date) (preguntas : list PreguntaForm)
  (w : World) (r : Response) :
  let req := examen_request env titulo descripcion fecha_inicio fecha_fin in
  titulo <> EmptyString ->
  date_before fecha_inicio fecha_fin ->
  network env (sent w) req = NetResponse r ->
  ~ (400 <= status_code r < 600) ->
  says_json r = true ->
  (text r = EmptyString
   \/ exists v, decode_json (text r) 0 = Ok v /\ truthy v = false) ->
  crear_examen env true titulo descripcion fecha_inicio fecha_fin preguntas w =
  (Ok tt,
   {| sent := sent w ++ [req];
      ui := ui w ++ [st_error [FLit "❌ Error al crear el examen"]] |}).
Proof.
  intros req Ht Hd N S J B.
  rewrite crear_examen_cases. cbn [negb].
  apply String.eqb_neq in Ht. apply date_ge_false_iff in Hd. rewrite Ht, Hd.
  rewrite make_request_cases.
  change (mk_request "POST" (build_url env (ENDPOINTS env "examenes"))
            (Some (get_headers env))
            (req_json (examen_request env titulo descripcion fecha_inicio fecha_fin))
            None) with req.
  rewrite N. apply error_status_false_iff in S. rewrite S, J.
  destruct (String.eqb_spec (text r) EmptyString) as [E|E]; [reflexivity|].
  destruct B as [B|(v & D & T)]; [contradiction|].
  rewrite D, T. reflexivity.
Qed.

Lemma X4_witness :
  let env := local_env [json_reply 201 "Created" "{}"] (NetRaise "unreachable") in
  let d1 := {| year := 2024; month := 5; day := 10 |} in
  let d2 := {| year := 2024; month := 5; day := 17 |} in
  crear_examen env true "Parcial" "Tema 1" d1 d2
    [{| textoPregunta := "uno"; tipoPregunta := "TEXTO_ABIERTO";
        opciones := []; puntos := 1 |}] fresh =
  (Ok tt,
   {| sent := [examen_request env "Parcial" "Tema 1" d1 d2];
      ui := [st_error [FLit "❌ Error al crear el examen"]] |}).
Proof.
  intros env d1 d2.
  refine (X4_falsy_body_is_failure env "Parcial" "Tema 1" d1 d2 _ fresh _
            _ _ eq_refl _ eq_refl _).
  - discriminate.
  - unfold date_before. simpl. lia.
  - simpl. lia.
  - right. exists (JObj []). split; reflexivity.
Defined.

(** X5.  When the value returned for the new exam counts as true but
    is not an object (a list, a string, a number, [true]), reading its
    [id] raises; the handler then reports the exam as created, shows
    the value and reruns the script, and no question is sent. *)
Theorem X5_non_object_result_drops_questions (env : Env) (titulo descripcion : string)
  (fecha_inicio fecha_fin : date) (preguntas : list PreguntaForm)
  (w w1 : World) (v : json) :
  let req := examen_request env titulo descripcion fecha_inicio fecha_fin in
  titulo <> EmptyString ->
  date_before fecha_inicio fecha_fin ->
  make_request env "POST" (ENDPOINTS env "examenes") (Some (get_headers env))
    (req_json req) None w = (Ok v, w1) ->
  truthy v = true ->
  (forall d, v <> JObj d) ->
  crear_examen env true titulo descripcion fecha_inicio fecha_fin preguntas w =
  (Raise RerunException,
   {| sent := sent w ++ [req];
      ui := ui w1 ++
            [st_error [FLit "⚠️ Error inesperado: "; FExc (AttributeError "get")];
             st_write [FLit "Detalles del error:"];
             st_write [FExc (AttributeError "get")];
             st_success [FLit "✅ Examen creado con éxito"];
             st_json v] |}).
Proof.
  intros req Ht Hd Hmk T NO.
  rewrite crear_examen_cases. cbn [negb].
  apply String.eqb_neq in Ht. apply date_ge_false_iff in Hd. rewrite Ht, Hd.
  fold req. rewrite Hmk, T.
  destruct (make_request_effects env "POST" (ENDPOINTS env "examenes")
              (Some (get_headers env)) (req_json req) None w) as (v' & extra & E & _).
  rewrite Hmk in E. injection E as _ ->.
  destruct v; try reflexivity. now elim (NO d).
Qed.

Lemma X5_witness :
  let env := local_env [json_reply 201 "Created" "[7]"] (NetRaise "unreachable") in
  let d1 := {| year := 2024; month := 5; day := 10 |} in
  let d2 := {| year := 2024; month := 5; day := 17 |} in
  crear_examen env true "Parcial" "Tema 1" d1 d2
    [{| textoPregunta := "uno"; tipoPregunta := "TEXTO_ABIERTO";
        opciones := []; puntos := 1 |}] fresh =
  (Raise RerunException,
   {| sent := [examen_request env "Parcial" "Tema 1" d1 d2];
      ui := [st_error [FLit "⚠️ Error inesperado: "; FExc (AttributeError "get")];
             st_write [FLit "Detalles del error:"];
             st_write [FExc (AttributeError "get")];
             st_success [FLit "✅ Examen creado con éxito"];
             st_json (JArr [JInt 7])] |}).
Proof.
  intros env d1 d2.
  refine (X5_non_object_result_drops_questions env "Parcial" "Tema 1" d1 d2 _ fresh
            {| sent := [examen_request env "Parcial" "Tema 1" d1 d2]; ui := [] |}
            (JArr [JInt 7]) _ _ _ eq_refl _).
  - discriminate.
  - unfold date_before. simpl. lia.
  - vm_compute. reflexivity.
  - discriminate.
Defined.

Lemma for_each_map {A B : Type} (f : A -> B) (body : B -> M unit) (l : list A)
  (w : World) :
  for_each (map f l) body w = for_each l (fun x => body (f x)) w.
Proof.
  revert w. induction l as [|x r IH]; intros w; [reflexivity|].
  cbn [map for_each]. unfold bind. destruct (body (f x) w) as [[u|e] w']; [apply IH|reflexivity].
Qed.

(** X6.  The options typed into the form are never sent: a run of
    [crear_examen] is the same, requests and messages, as the run on
    the same form with every list of options emptied. *)
Theorem X6_options_are_not_sent (env : Env) (submitted : bool)
  (titulo descripcion : string) (fecha_inicio fecha_fin : date)
  (preguntas : list PreguntaForm) (w : World) :
  crear_examen env submitted titulo descripcion fecha_inicio fecha_fin preguntas w =
  crear_examen env submitted titulo descripcion fecha_inicio fecha_fin
    (map sin_opciones preguntas) w.
Proof.
  rewrite !crear_examen_cases.
  destruct (negb submitted); [reflexivity|].
  destruct (String.eqb titulo EmptyString); [reflexivity|].
  destruct (date_ge fecha_inicio fecha_fin); [reflexivity|].
  destruct (make_request _ _ _ _ _ _ w) as [[v|e] w1]; [|reflexivity].
  destruct (truthy v); [|reflexivity].
  destruct v; try reflexivity.
  cbv zeta. rewrite for_each_map. reflexivity.
Qed.

(** X7.  Whatever the form and the backend, [crear_examen] sends
    nothing but [POST] requests that carry the bearer token, at most
    one more than there are questions; it sends none when the button
    was not pressed. *)
Theorem X7_only_posts_bounded (env : Env) (submitted : bool)
  (titulo descripcion : string) (fecha_inicio fecha_fin : date)
  (preguntas : list PreguntaForm) (w : World) :
  exists l,
    sent (snd (crear_examen env submitted titulo descripcion fecha_inicio fecha_fin
                 preguntas w)) = sent w ++ l
    /\ (length l <= 1 + length preguntas)%nat
    /\ Forall (fun r => req_method r = "POST"
                        /\ req_headers r = Some [("Authorization", "Bearer " ++ TOKEN env)%string]
                        /\ req_params r = None) l
    /\ (submitted = false -> l = []).
Proof.
  rewrite crear_examen_cases.
  set (good := fun r : Request =>
                 req_method r = "POST"
                 /\ req_headers r = Some [("Authorization", "Bearer " ++ TOKEN env)%string]
                 /\ req_params r = None).
  destruct submitted; cbn [negb].
  2:{ exists []. cbn. rewrite app_nil_r. split; [reflexivity|].
      split; [lia|]. split; [constructor|reflexivity]. }
  assert (Nil : forall c, exists l : list Request,
            sent (snd (Ok tt, add_ui w c)) = sent w ++ l
            /\ (length l <= 1 + length preguntas)%nat
            /\ Forall good l /\ (true = false -> l = [])).
  { intros c. exists []. cbn. rewrite app_nil_r. split; [reflexivity|].
    split; [lia|]. split; [constructor|discriminate]. }
  destruct (String.eqb titulo EmptyString); [apply Nil|].
  destruct (date_ge fecha_inicio fecha_fin); [apply Nil|].
  destruct (make_request_effects env "POST" (ENDPOINTS env "examenes")
              (Some (get_headers env))
              (req_json (examen_request env titulo descripcion fecha_inicio fecha_fin))
              None w) as (v & extra & E & _).
  rewrite E.
  set (req := mk_request "POST" (build_url env (ENDPOINTS env "examenes"))
                (Some (get_headers env))
                (req_json (examen_request env titulo descripcion fecha_inicio fecha_fin))
                None).
  assert (G : good req) by (repeat split).
  assert (One : forall (x : result unit) c,
            exists l : list Request,
              sent (snd (x, add_ui (add_ui (add_sent w req) extra) c)) = sent w ++ l
              /\ (length l <= 1 + length preguntas)%nat
              /\ Forall good l /\ (true = false -> l = [])).
  { intros x c. exists [req]. cbn. split; [reflexivity|].
    split; [lia|]. split; [repeat constructor; exact G|discriminate]. }
  destruct (truthy v); [|apply One].
  destruct v; try apply One.
  cbv zeta.
  match goal with
  | |- context [for_each preguntas (enviar_pregunta env ?i) ?W] =>
      destruct (for_each_pregunta env i preguntas W) as (oks & w2 & E2 & S2 & _)
  end.
  rewrite E2. cbn [snd]. rewrite S2. cbn [sent add_ui add_sent].
  rewrite <- app_assoc. eexists. split; [reflexivity|].
  cbn [app length]. rewrite length_map. split; [lia|]. split; [|discriminate].
  constructor; [exact G|].
  apply Forall_forall. intros x Hx. apply in_map_iff in Hx as (p & <- & _).
  repeat split.
Qed.

(** ** The active exams *)

Lemma date_leq_trans (a b c : date) : date_leq a b -> date_leq b c -> date_leq a c.
Proof. unfold date_leq, date_before, same_day. lia. Qed.

Lemma date_before_not_leq (a b : date) : date_before a b -> ~ date_leq b a.
Proof. unfold date_leq, date_before, same_day. lia. Qed.

(** X8.  The days on which an exam is active have no gap: a day between
    two days on which it is active is a day on which it is active.  An
    exam whose last day is before its first day is active on no day. *)
Theorem X8_active_days_have_no_gap (e : Examen) (d1 d2 d3 : date) :
  (is_active e d1 = true -> is_active e d3 = true ->
   date_leq d1 d2 -> date_leq d2 d3 -> is_active e d2 = true)
  /\ (date_before (ex_fechaFin e) (ex_fechaInicio e) -> is_active e d2 = false).
Proof.
  split.
  - intros A1 A3 L12 L23.
    apply is_active_iff in A1 as (S1 & _ & Q). apply is_active_iff in A3 as (_ & E3 & _).
    apply is_active_iff. split; [|split; [|exact Q]].
    + exact (date_leq_trans _ _ _ S1 L12).
    + exact (date_leq_trans _ _ _ L23 E3).
  - intros Inv. destruct (is_active e d2) eqn:A; [|reflexivity].
    apply is_active_iff in A as (S & E & _).
    elim (date_before_not_leq _ _ Inv). exact (date_leq_trans _ _ _ S E).
Qed.

Lemma X8_witness :
  let e := {| ex_id := 4; ex_titulo := "Parcial";
              ex_fechaInicio := {| year := 2024; month := 2; day := 28 |};
              ex_fechaFin := {| year := 2024; month := 3; day := 1 |};
              ex_preguntasIds := JArr [JInt 9] |} in
  is_active e {| year := 2024; month := 2; day := 29 |} = true.
Proof.
  intros e.
  refine (proj1 (X8_active_days_have_no_gap e (ex_fechaInicio e)
                   {| year := 2024; month := 2; day := 29 |} (ex_fechaFin e))
            eq_refl eq_refl _ _).
  - left. right. split; [reflexivity|]. right. split; [reflexivity|]. simpl. lia.
  - left. right. split; [reflexivity|]. left. simpl. lia.
Defined.

Lemma filter_first {A : Type} (f : A -> bool) (l : list A) (x : A) (r : list A) :
  filter f l = x :: r ->
  exists pre post,
    l = pre ++ x :: post /\ f x = true /\ Forall (fun y => f y = false) pre.
Proof.
  induction l as [|a l IH]; cbn; [discriminate|].
  destruct (f a) eqn:F.
  - intros [= -> <-]. exists [], l. repeat split; [exact F|constructor].
  - intros H. destruct (IH H) as (pre & post & -> & Fx & Fp).
    exists (a :: pre), post. repeat split; [exact Fx|]. constructor; assumption.
Qed.

Lemma filter_first_inv {A : Type} (f : A -> bool) (pre post : list A) (x : A) :
  f x = true -> Forall (fun y => f y = false) pre ->
  filter f (pre ++ x :: post) = x :: filter f post.
Proof.
  intros Fx Fp. induction Fp as [|a pre Fa _ IH]; cbn; [now rewrite Fx|].
  now rewrite Fa.
Qed.

(** X9.  The exam opened is found by its title: it is the first
    active exam, in the order of the table, that has the title
    selected, so of two active exams with one title the second is never
    opened; and an exam whose title is empty is never opened. *)
Theorem X9_first_exam_with_the_title_is_opened (examen_seleccionado : string)
  (activos : list Examen) (id : Z) :
  abrir_examen examen_seleccionado activos = Abre id <->
  examen_seleccionado <> EmptyString
  /\ exists pre e post,
       activos = pre ++ e :: post
       /\ ex_titulo e = examen_seleccionado
       /\ ex_id e = id
       /\ Forall (fun x => ex_titulo x <> examen_seleccionado) pre.
Proof.
  unfold abrir_examen. split.
  - destruct examen_seleccionado as [|c s]; [discriminate|].
    destruct (filter _ activos) as [|e r] eqn:F; [discriminate|].
    intros [= <-]. split; [discriminate|].
    apply filter_first in F as (pre & post & -> & Fe & Fp).
    exists pre, e, post. repeat split; [now apply String.eqb_eq|].
    eapply Forall_impl; [|exact Fp]. intros x. apply String.eqb_neq.
  - intros (Hne & pre & e & post & -> & Ht & <- & Fp).
    destruct examen_seleccionado as [|c s]; [congruence|].
    rewrite filter_first_inv; [reflexivity|now apply String.eqb_eq|].
    eapply Forall_impl; [|exact Fp]. intros x. apply String.eqb_neq.
Qed.

Lemma X9_witness :
  let ex i t := {| ex_id := i; ex_titulo := t;
                   ex_fechaInicio := {| year := 2024; month := 1; day := 1 |};
                   ex_fechaFin := {| year := 2024; month := 12; day := 31 |};
                   ex_preguntasIds := JArr [JInt 1] |} in
  abrir_examen "Parcial" [ex 1 "Final"; ex 2 "Parcial"; ex 3 "Parcial"] = Abre 2.
Proof.
  intros ex.
  apply (proj2 (X9_first_exam_with_the_title_is_opened "Parcial"
                  [ex 1 "Final"; ex 2 "Parcial"; ex 3 "Parcial"] 2)).
  split; [discriminate|].
  exists [ex 1 "Final"], (ex 2 "Parcial"), [ex 3 "Parcial"].
  repeat split. repeat constructor. discriminate.
Defined.

(** ** The answers of a session, further *)

Lemma eq_str_true (v : json) (s : string) : eq_str v s = true -> v = JStr s.
Proof.
  destruct v; cbn; try discriminate. intros H. apply String.eqb_eq in H. now subst.
Qed.


(** What showing one question does to the mapping, when it goes
    through. *)
Lemma mostrar_pregunta_Ok (entrada : json -> option string)
  (respuestas m : Respuestas) (pregunta : json) :
  mostrar_pregunta entrada respuestas pregunta = Ok m ->
  exists pregunta_id,
    getitem pregunta "id" = Ok pregunta_id
    /\ (m = respuestas
        \/ exists r,
             get_default pregunta "tipo" JNull = Ok (JStr "TEXTO_ABIERTO")
             /\ entrada pregunta_id = Some r
             /\ r <> EmptyString
             /\ hashable pregunta_id = true
             /\ m = dict_set py_key_eqb pregunta_id (texto_abierto r) respuestas).
Proof.
  unfold mostrar_pregunta. intros H.
  apply rbind_Ok in H as (pregunta_id & Gid & H). exists pregunta_id. split; [exact Gid|].
  apply rbind_Ok in H as (tx & _ & H).
  apply rbind_Ok in H as (ops & _ & H).
  apply rbind_Ok in H as (tp & Gt & H).
  destruct (eq_str tp "SELECCION_UNICA") eqn:E1.
  - apply rbind_Ok in H as (opts & _ & H). apply rbind_Ok in H as (labels & _ & H).
    discriminate H.
  - destruct (eq_str tp "TEXTO_ABIERTO") eqn:E2; [|left; congruence].
    apply eq_str_true in E2. subst tp.
    destruct (entrada pregunta_id) as [[|c s]|] eqn:En; try (left; congruence).
    unfold record_answer in H. destruct (hashable pregunta_id) eqn:Hh; [|discriminate].
    injection H as <-. right. exists (String c s).
    repeat split; try assumption; discriminate.
Qed.



(** X11.  Showing the questions of an exam never drops an answer: the
    keys of the mapping stay, in their order, new ones going to the
    end, and the answer recorded under a key is the same before and
    after when no question shown has an identifier equal to that key,
    in the sense in which Python compares the keys of a [dict].
    Answers given to the questions of another exam therefore stay in
    the mapping. *)
Theorem X11_answers_are_never_dropped (entrada : json -> option string)
  (preguntas : list json) (respuestas m : Respuestas) :
  mostrar_preguntas entrada preguntas respuestas = Ok m ->
  (exists nuevas, dict_keys m = dict_keys respuestas ++ nuevas)
  /\ (forall k,
        (forall p i, In p preguntas -> getitem p "id" = Ok i -> py_key_eqb i k = false) ->
        dict_get py_key_eqb k m = dict_get py_key_eqb k respuestas).
Proof.
  unfold mostrar_preguntas. revert respuestas.
  induction preguntas as [|p rest IH]; intros respuestas H; cbn in H.
  - injection H as <-. split; [exists []; now rewrite app_nil_r|reflexivity].
  - apply rbind_Ok in H as (m1 & E1 & H).
    apply IH in H as ((nuevas & Hk) & Hg).
    apply mostrar_pregunta_Ok in E1 as (pid & Gid & E1).
    split.
    + rewrite Hk. destruct E1 as [->|(r & _ & _ & _ & _ & ->)];
        [now exists nuevas|].
      destruct (dict_keys_set py_key_eqb pid (texto_abierto r) respuestas)
        as [E|[E _]]; rewrite E.
      * now exists nuevas.
      * exists ([pid] ++ nuevas). now rewrite app_assoc.
    + intros k Hno. rewrite Hg by (intros q i Hq; apply Hno; now right).
      destruct E1 as [->|(r & _ & _ & _ & _ & ->)]; [reflexivity|].
      assert (N : py_key_eqb pid k = false) by (apply (Hno p); [now left|exact Gid]).
      apply dict_get_set_other; [exact N|].
      intros a. now apply py_key_eqb_other.
Qed.

(** Question 2 is answered while the mapping holds an answer to
    question 77 of another exam. *)
Lemma X11_witness :
  dict_get py_key_eqb (JInt 77)
    [(JInt 77, texto_abierto "de otro examen"); (JInt 2, texto_abierto "hello")]
  = dict_get py_key_eqb (JInt 77) [(JInt 77, texto_abierto "de otro examen")].
Proof.
  refine (proj2 (X11_answers_are_never_dropped (fun _ => Some "hello")
                   [pregunta_abierta 2 "Explica"]
                   [(JInt 77, texto_abierto "de otro examen")]
                   [(JInt 77, texto_abierto "de otro examen");
                    (JInt 2, texto_abierto "hello")] eq_refl) (JInt 77) _).
  intros p i [<-|[]] [= <-]. reflexivity.
Defined.

(** ** Sending the answers *)

(** Every way [enviar_examen] can go. *)
Lemma enviar_examen_cases (env : Env) (examen_id : Z) (respuestas : Respuestas)
  (preguntas : list json) (w : World) :
  enviar_examen env examen_id respuestas preguntas w =
  match build_submission examen_id respuestas preguntas with
  | Raise e =>
      (Ok tt, add_ui w [st_error [FLit "❌ Error al enviar el examen: "; FExc e]])
  | Ok p =>
      let req := results_request env p in
      match network env (sent w) req with
      | NetRaise msg =>
          (Ok tt,
           add_ui (add_sent w req)
             [st_error [FLit "❌ Error al enviar el examen: ";
                        FExc (RequestException msg)]])
      | NetResponse r =>
          if status_code r =? 201 then
            (Raise RerunException,
             add_ui (add_sent w req)
               [st_success [FLit "✅ Examen enviado con éxito!"];
                st_write [FLit "Puedes ver tus resultados en la sección de Resultados"]])
          else
            (Ok tt,
             add_ui (add_sent w req)
               [st_error [FLit "❌ Error al enviar el examen. Código: ";
                          FVal (JInt (status_code r))];
                st_write [FLit "Respuesta del servidor:"];
                st_write [FStr (text r)]])
      end
  end.
Proof.
  pose proof (enviar_examen_sent env examen_id respuestas preguntas w) as S.
  destruct (build_submission examen_id respuestas preguntas) as [p|e] eqn:B;
    [clear S|exact S].
  unfold enviar_examen, try_except, bind at 1, lift. rewrite B.
  unfold bind at 1, requests_request.
  cbv zeta. unfold results_request, mk_request.
  destruct (network env (sent w) _) as [msg|r]; [reflexivity|].
  destruct (status_code r =? 201); unfold bind, st, st_rerun, raise, add_ui, add_sent;
    cbn [sent ui is_Exception]; repeat rewrite <- app_assoc; reflexivity.
Qed.

(** X12.  [enviar_examen] ends in a rerun of the script exactly when
    the payload was built and the backend answered 201; in every other
    case, a failure of the network among them, it returns after having
    shown an [st.error].  It issues one request at most. *)
Theorem X12_rerun_iff_accepted (env : Env) (examen_id : Z) (respuestas : Respuestas)
  (preguntas : list json) (w : World) :
  let run := enviar_examen env examen_id respuestas preguntas w in
  (fst run = Raise RerunException <->
   exists p r,
     build_submission examen_id respuestas preguntas = Ok p
     /\ network env (sent w) (results_request env p) = NetResponse r
     /\ status_code r = 201)
  /\ (fst run <> Raise RerunException ->
      fst run = Ok tt
      /\ exists shown,
           ui (snd run) = ui w ++ shown /\ existsb is_st_error shown = true)
  /\ (length (sent (snd run)) <= S (length (sent w)))%nat.
Proof.
  intros run. unfold run. rewrite enviar_examen_cases.
  destruct (build_submission examen_id respuestas preguntas) as [p|e].
  - cbv zeta.
    destruct (network env (sent w) (results_request env p)) as [msg|r] eqn:N.
    + cbn. split; [|split].
      * split; [discriminate|]. intros (p' & r & [= <-] & ? & _). congruence.
      * intros _. split; [reflexivity|]. eexists. split; reflexivity.
      * rewrite length_app. cbn. lia.
    + destruct (Z.eqb_spec (status_code r) 201) as [E|E]; cbn; (split; [|split]).
      * split; [|reflexivity]. intros _. exists p, r. auto.
      * intros H. now elim H.
      * rewrite length_app. cbn. lia.
      * split; [discriminate|]. intros (p' & r' & [= <-] & R & ?).
        rewrite N in R. injection R as <-. contradiction.
      * intros _. split; [reflexivity|]. eexists. split; reflexivity.
      * rewrite length_app. cbn. lia.
  - cbn. split; [|split].
    + split; [discriminate|]. intros (p & r & [=] & _).
    + intros _. split; [reflexivity|]. eexists. split; reflexivity.
    + lia.
Qed.

Lemma X12_witness :
  fst (enviar_examen (local_env [json_reply 201 "Created" EmptyString] (NetRaise "x"))
         7 [(JInt 2, texto_abierto "hello")] [pregunta_abierta 2 "Explica"] fresh)
  = Raise RerunException.
Proof.
  apply (proj2 (proj1 (X12_rerun_iff_accepted
                         (local_env [json_reply 201 "Created" EmptyString] (NetRaise "x"))
                         7 [(JInt 2, texto_abierto "hello")]
                         [pregunta_abierta 2 "Explica"] fresh))).
  eexists _, _. split; [reflexivity|]. split; reflexivity.
Defined.

(** ** Roles and menu *)

(** X13.  The role chosen is kept by the session until it is changed.
    With no role in the session, pressing [Continuar] stores the role
    selected and reruns the script, and from then on [select_role]
    returns the stored role whatever the selection shows; pressing
    [Cambiar Rol] removes it and reruns, and the next run is that of a
    session with no role.  With no role in the session and [Continuar]
    not pressed, [select_role] still returns the role the selection
    shows, without storing it. *)
Theorem X13_role_is_kept_until_changed (a : App) (s s' : string) (b c : bool) :
  (app_role a = None ->
   let run := select_role s true b a in
   fst run = Raise RerunException
   /\ app_role (snd run) = Some s
   /\ fst (select_role s' c false (snd run)) = Ok (Some s)
   /\ app_role (snd (select_role s' c false (snd run))) = Some s)
  /\ (forall r, app_role a = Some r ->
      let run := select_role s b true a in
      fst run = Raise RerunException
      /\ app_role (snd run) = None
      /\ fst (select_role s' false c (snd run)) = Ok (Some s'))
  /\ (app_role a = None ->
      fst (select_role s false b a) = Ok (Some s)
      /\ app_role (snd (select_role s false b a)) = None).
Proof.
  destruct a as [se u ro]. cbn [app_role]. split; [|split].
  - intros ->. cbn. auto.
  - intros r ->. cbn. auto.
  - intros ->. cbn. auto.
Qed.

Lemma X13_witness :
  let a := {| app_sent := []; app_ui := []; app_role := None |} in
  fst (select_role "teacher" false false (snd (select_role "student" true false a)))
  = Ok (Some "student").
Proof.
  intros a.
  exact (proj1 (proj2 (proj2 (proj1 (X13_role_is_kept_until_changed a "student" "teacher"
                                        false false) eq_refl)))).
Defined.

Lemma menu_de_cases (r choice : string) :
  In choice (menu_de r) ->
  (r = "admin"
   /\ (choice = "Inicio" \/ choice = "Exámenes" \/ choice = "Resultados"
       \/ choice = "Usuarios" \/ choice = "Configuración" \/ choice = "Estadísticas"))
  \/ (r = "student"
      /\ (choice = "Inicio" \/ choice = "Realizar Examen" \/ choice = "Resultados"))
  \/ (r <> "admin" /\ r <> "student"
      /\ (choice = "Inicio" \/ choice = "Exámenes" \/ choice = "Resultados")).
Proof.
  unfold menu_de.
  destruct (String.eqb_spec r "admin") as [->|Na].
  - intros H. left. split; [reflexivity|]. cbn in H. intuition auto.
  - destruct (String.eqb_spec r "student") as [->|Ns].
    + intros H. right. left. split; [reflexivity|]. cbn in H. intuition auto.
    + intros H. right. right. cbn in H. intuition auto.
Qed.

(** X14.  With a role in the session, every choice the menu of that
    role offers leads to its page: the check of the role at the head of
    a page never refuses a choice of the menu.  The page of the exams
    to take is reached by students only, and the pages of users,
    settings and statistics by administrators only. *)
Theorem X14_menu_choices_are_never_refused (a : App) (r choice s : string) (b : bool) :
  app_role a = Some r ->
  r <> EmptyString ->
  In choice (menu_de r) ->
  exists p,
    pagina_de choice = Some p
    /\ fst (main_hasta_pagina s b false choice a) = Ok (Some p)
    /\ (p = PRealizarExamen -> r = "student")
    /\ (p = PUsuarios \/ p = PConfiguracion \/ p = PEstadisticas -> r = "admin").
Proof.
  destruct a as [se u ro]. cbn [app_role]. intros -> Hne Hin.
  apply menu_de_cases in Hin as [[Er H]|[[Er H]|(Na & Ns & H)]]; try subst r.
  - repeat destruct H as [H|H]; subst choice; eexists;
      (split; [reflexivity|]); (split; [reflexivity|]);
      split; intros; try reflexivity; try discriminate.
  - repeat destruct H as [H|H]; subst choice; eexists;
      (split; [reflexivity|]); (split; [reflexivity|]);
      split; intros; try reflexivity; try discriminate;
      repeat match goal with H : _ \/ _ |- _ => destruct H end; discriminate.
  - destruct r as [|c0 r0]; [congruence|].
    repeat destruct H as [H|H]; subst choice; eexists;
      (split; [reflexivity|]); (split; [reflexivity|]);
      split; intros; try discriminate;
      repeat match goal with H : _ \/ _ |- _ => destruct H end; discriminate.
Qed.

Lemma X14_witness :
  fst (main_hasta_pagina "admin" false false "Realizar Examen"
         {| app_sent := []; app_ui := []; app_role := Some "student" |})
  = Ok (Some PRealizarExamen).
Proof.
  destruct (X14_menu_choices_are_never_refused
              {| app_sent := []; app_ui := []; app_role := Some "student" |}
              "student" "Realizar Examen" "admin" false eq_refl
              ltac:(discriminate) ltac:(simpl; auto)) as (p & P & R & _).
  injection P as <-. exact R.
Defined.

(** X15.  While the session has no role and [Continuar] has not been
    pressed, [main] goes on with the role the selection shows; a page
    that checks the role of the session then raises, since the session
    has none. *)
Theorem X15_role_checked_before_it_is_stored (a : App) (s choice : string) (b : bool) :
  app_role a = None ->
  s <> EmptyString ->
  choice = "Realizar Examen" \/ choice = "Usuarios" \/ choice = "Configuración" ->
  fst (main_hasta_pagina s false b choice a) = Raise (AttributeError "role")
  /\ app_role (snd (main_hasta_pagina s false b choice a)) = None.
Proof.
  destruct a as [se u ro]. cbn [app_role]. intros -> Hne H.
  destruct s as [|c0 s0]; [congruence|].
  destruct H as [-> | [-> | ->]]; split; reflexivity.
Qed.

Lemma X15_witness :
  fst (main_hasta_pagina "admin" false false "Usuarios"
         {| app_sent := []; app_ui := []; app_role := None |})
  = Raise (AttributeError "role").
Proof.
  exact (proj1 (X15_role_checked_before_it_is_stored
                  {| app_sent := []; app_ui := []; app_role := None |}
                  "admin" "Usuarios" false eq_refl ltac:(discriminate)
                  (or_intror (or_introl eq_refl)))).
Defined.

(** ** Managing the exams *)

(** X16.  The [DELETE] request is issued only when the answer to the
    confirmation is [Sí] and the button is pressed, and then once.
    Only status 204 counts as success, and reruns the script; any
    other status, 200 included, is shown as an error with its code; a
    failure of the network is not caught here and stops the script. *)
Theorem X16_delete_needs_confirmation (env : Env) (exam_id_delete : Z)
  (exam_titulo_delete confirmar : string) (boton : bool) (a : App) :
  let run := eliminar_examen env exam_id_delete exam_titulo_delete confirmar boton a in
  let req := mk_request "DELETE" (examen_url env exam_id_delete)
               (Some (get_headers env)) None None in
  (confirmar <> "Sí" \/ boton = false ->
   fst run = Ok tt /\ app_sent (snd run) = app_sent a)
  /\ (confirmar = "Sí" -> boton = true ->
      app_sent (snd run) = app_sent a ++ [req]
      /\ match network env (app_sent a) req with
         | NetRaise msg => fst run = Raise (RequestException msg)
         | NetResponse r =>
             if status_code r =? 204 then
               fst run = Raise RerunException
               /\ exists before,
                    app_ui (snd run) =
                    before ++ [Call "st.success"
                                 [Lit "✅ Examen ID "; Val (JInt exam_id_delete);
                                  Lit " eliminado con éxito"]]
             else
               fst run = Ok tt
               /\ exists before,
                    app_ui (snd run) =
                    before ++ [Call "st.error"
                                 [Lit "❌ Error al eliminar el examen. Código: ";
                                  Val (JInt (status_code r))]]
         end).
Proof.
  intros run req. unfold run, eliminar_examen, abind, call. cbn [app_sent app_ui app_role].
  split.
  - intros H. destruct (String.eqb_spec confirmar "Sí") as [E|E].
    + destruct H as [H | ->]; [contradiction|]. split; reflexivity.
    + split; reflexivity.
  - intros -> ->. rewrite String.eqb_refl. unfold requests_call. cbn [app_sent app_ui app_role].
    fold req. destruct (network env (app_sent a) req) as [msg|r]; cbn; [auto|].
    destruct (status_code r =? 204); cbn; (split; [reflexivity|]); split;
      try reflexivity; eexists; reflexivity.
Qed.

Lemma X16_witness :
  let env := local_env [json_reply 200 "OK" EmptyString] (NetRaise "x") in
  let run := eliminar_examen env 5 "Parcial" "Sí" true
               {| app_sent := []; app_ui := []; app_role := Some "admin" |} in
  app_sent (snd run) =
  [mk_request "DELETE" "http://localhost:5000/examenes/5"
     (Some [("Authorization", "Bearer secret")]) None None]
  /\ fst run = Ok tt.
Proof.
  intros env run.
  pose proof (proj2 (X16_delete_needs_confirmation env 5 "Parcial" "Sí" true
                       {| app_sent := []; app_ui := []; app_role := Some "admin" |})
                eq_refl eq_refl) as [S R].
  split; [exact S|exact (proj1 R)].
Defined.

(** X17.  Editing checks nothing: whatever title and dates the form
    returns, an empty title and a last day before the first among
    them, pressing the button sends one [PUT] with them.  The creator
    and the identifiers of the questions in that body are those of the
    row, so the questions stay attached.  Only status 200 counts as
    success; a failure of the network is not caught. *)
Theorem X17_edit_sends_without_validation (env : Env) (to_date : json -> result date)
  (exam_id_edit : Z) (examen : json) (nuevo_titulo nueva_descripcion : string)
  (nueva_fecha_inicio nueva_fecha_fin : date) (a : App)
  (t d fi ff : json) (d1 d2 : date) (creador : Z) (cell : json) (ids : list Z) :
  let run := editar_examen env to_date exam_id_edit examen nuevo_titulo
               nueva_descripcion nueva_fecha_inicio nueva_fecha_fin true a in
  let req := mk_request "PUT" (examen_url env exam_id_edit) (Some (get_headers env))
               (Some (editar_payload nuevo_titulo nueva_descripcion
                        nueva_fecha_inicio nueva_fecha_fin creador ids)) None in
  exam_id_edit <> 0 ->
  getitem examen "titulo" = Ok t ->
  getitem examen "descripcion" = Ok d ->
  getitem examen "fechaInicio" = Ok fi -> to_date fi = Ok d1 ->
  getitem examen "fechaFin" = Ok ff -> to_date ff = Ok d2 ->
  rbind (getitem examen "creadorId") py_int = Ok creador ->
  get_default examen "preguntasIds" (JArr []) = Ok cell ->
  rbind (iter cell) (rmap py_int) = Ok ids ->
  app_sent (snd run) = app_sent a ++ [req]
  /\ match network env (app_sent a) req with
     | NetRaise msg => fst run = Raise (RequestException msg)
     | NetResponse r =>
         if status_code r =? 200 then fst run = Raise RerunException
         else fst run = Ok tt
     end.
Proof.
  intros run req Hid Gt Gd Gfi Tfi Gff Tff Gc Gp Gi.
  unfold run, editar_examen, abind, call, alift. cbn [app_sent app_ui app_role].
  apply Z.eqb_neq in Hid. rewrite Hid, Gt, Gd, Gfi, Gff. cbn [rbind].
  rewrite Tfi, Tff, Gc, Gp. cbn [rbind]. rewrite Gi.
  unfold requests_call. cbn [app_sent app_ui app_role]. fold req.
  destruct (network env (app_sent a) req) as [msg|r]; cbn; [auto|].
  destruct (status_code r =? 200); cbn; auto.
Qed.

Lemma X17_witness :
  let env := local_env [json_reply 200 "OK" EmptyString] (NetRaise "x") in
  let d1 := {| year := 2024; month := 5; day := 17 |} in
  let d2 := {| year := 2024; month := 5; day := 10 |} in
  let examen :=
    JObj [("id", JInt 5); ("titulo", JStr "Parcial"); ("descripcion", JStr "Tema 1");
          ("fechaInicio", JStr "2024-05-10"); ("fechaFin", JStr "2024-05-17");
          ("creadorId", JInt 3); ("preguntasIds", JArr [JInt 8; JInt 9])] in
  app_sent (snd (editar_examen env (fun _ => Ok d2) 5 examen EmptyString "Tema 1" d1 d2
                   true {| app_sent := []; app_ui := []; app_role := Some "admin" |}))
  = [mk_request "PUT" "http://localhost:5000/examenes/5"
       (Some [("Authorization", "Bearer secret")])
       (Some (JObj [("titulo", JStr EmptyString); ("descripcion", JStr "Tema 1");
                    ("fechaInicio", JStr "2024-05-17"); ("fechaFin", JStr "2024-05-10");
                    ("creadorId", JInt 3);
                    ("preguntasIds", JArr [JInt 8; JInt 9])])) None].
Proof.
  intros env d1 d2 examen.
  exact (proj1 (X17_edit_sends_without_validation env (fun _ => Ok d2) 5 examen
                  EmptyString "Tema 1" d1 d2
                  {| app_sent := []; app_ui := []; app_role := Some "admin" |}
                  (JStr "Parcial") (JStr "Tema 1") (JStr "2024-05-10") (JStr "2024-05-17")
                  d2 d2 3 (JArr [JInt 8; JInt 9]) [8; 9]
                  ltac:(discriminate) eq_refl eq_refl eq_refl eq_refl eq_refl eq_refl
                  eq_refl eq_refl eq_refl)).
Defined.

(** X18.  The questions of the exam chosen are asked for with one
    [GET], except for an exam whose identifier is 0, for which nothing
    is requested.  An answer that is an empty list, an empty body among
    them, gives the warning that the exam has no questions and no
    error. *)
Theorem X18_empty_list_is_a_warning (env : Env) (exam_id : Z) (exam_titulo : string)
  (a : App) :
  let run := ver_preguntas env exam_id exam_titulo a in
  let req := mk_request "GET" (build_url env (preguntas_endpoint env exam_id))
               (Some (get_headers env)) None None in
  let head := [Call "st.subheader" [Lit "🔍 Ver preguntas de un examen"];
               Call "st.write" [Lit "Título: "; Str exam_titulo]] in
  (exam_id = 0 ->
   run = (Ok tt, {| app_sent := app_sent a; app_ui := app_ui a ++ head;
                    app_role := app_role a |}))
  /\ (exam_id <> 0 -> fst run = Ok tt /\ app_sent (snd run) = app_sent a ++ [req])
  /\ (exam_id <> 0 ->
      forall r,
        network env (app_sent a) req = NetResponse r ->
        ~ (400 <= status_code r < 600) ->
        says_json r = true ->
        text r = EmptyString \/ decode_json (text r) 0 = Ok (JArr []) ->
        app_ui (snd run) =
        app_ui a ++ head ++
        [Call "st.warning"
           [Lit "⚠️ Este examen no tiene preguntas registradas. ID: ";
            Val (JInt exam_id); Lit ", Título: "; Str exam_titulo]]).
Proof.
  intros run req head. unfold run, ver_preguntas, abind, call.
  cbn [app_sent app_ui app_role]. split; [|split].
  - intros ->. cbn. unfold head. now rewrite <- app_assoc.
  - intros Hid. apply Z.eqb_neq in Hid. rewrite Hid. unfold run_M.
    cbn [app_sent app_ui app_role].
    destruct (make_request_effects env "GET" (preguntas_endpoint env exam_id)
                (Some (get_headers env)) None None
                {| sent := app_sent a; ui := [] |}) as (v & extra & E & _).
    rewrite E. cbn [sent ui add_ui add_sent].
    destruct v as [| | | | |[|x l]|]; cbn; auto.
  - intros Hid r N S J B. apply Z.eqb_neq in Hid. rewrite Hid. unfold run_M.
    cbn [app_sent app_ui app_role]. rewrite make_request_cases. cbn [sent ui].
    fold req. rewrite N. apply error_status_false_iff in S. rewrite S, J.
    destruct (String.eqb_spec (text r) EmptyString) as [E|E].
    + cbn. unfold head. now rewrite app_nil_r, <- !app_assoc.
    + destruct B as [B|B]; [contradiction|]. rewrite B. cbn.
      unfold head. now rewrite app_nil_r, <- !app_assoc.
Qed.

Lemma X18_witness :
  let env := local_env [json_reply 200 "OK" EmptyString] (NetRaise "x") in
  app_ui (snd (ver_preguntas env 5 "Parcial"
                 {| app_sent := []; app_ui := []; app_role := Some "admin" |}))
  = [Call "st.subheader" [Lit "🔍 Ver preguntas de un examen"];
     Call "st.write" [Lit "Título: "; Str "Parcial"];
     Call "st.warning"
       [Lit "⚠️ Este examen no tiene preguntas registradas. ID: ";
        Val (JInt 5); Lit ", Título: "; Str "Parcial"]].
Proof.
  intros env.
  exact (proj2 (proj2 (X18_empty_list_is_a_warning env 5 "Parcial"
                         {| app_sent := []; app_ui := []; app_role := Some "admin" |}))
           ltac:(discriminate) _ eq_refl ltac:(simpl; lia) eq_refl (or_introl eq_refl)).
Defined.

(** ** The page of the exams to take *)

(** X19.  A list of exams that is empty is shown to the student as an
    error: when the backend answers the request for the exams with a
    success status and a JSON body that is empty or decodes to a value
    that counts as false, the page shows [Error al obtener la lista de
    exámenes], runs nothing of the block of the exams and sends nothing
    more.  And whenever that block runs and returns, the page still
    ends with the message that no exams are available. *)
Theorem X19_no_exams_is_shown_as_error (env : Env) (con_examenes : json -> A unit)
  (a : App) :
  let req := mk_request "GET" (build_url env (ENDPOINTS env "examenes"))
               (Some (get_headers env)) None None in
  let head := [Call "st.header" [Lit "📝 Realizar Examen"];
               Call "st.write" [Lit "Selecciona un examen para realizarlo"]] in
  let tail := [Call "st.info" [Lit "No hay exámenes disponibles."];
               Call "st.markdown" [Lit "---"]] in
  (forall r,
     network env (app_sent a) req = NetResponse r ->
     ~ (400 <= status_code r < 600) ->
     says_json r = true ->
     (text r = EmptyString
      \/ exists v, decode_json (text r) 0 = Ok v /\ truthy v = false) ->
     realizar_examen env con_examenes a =
     (Ok tt,
      {| app_sent := app_sent a ++ [req];
         app_ui := app_ui a ++ head
                   ++ [Call "st.error" [Lit "❌ Error al obtener la lista de exámenes"]]
                   ++ tail;
         app_role := app_role a |}))
  /\ (forall r v a1 a2,
        network env (app_sent a) req = NetResponse r ->
        ~ (400 <= status_code r < 600) ->
        says_json r = true ->
        text r <> EmptyString ->
        decode_json (text r) 0 = Ok v ->
        truthy v = true ->
        a1 = {| app_sent := app_sent a ++ [req]; app_ui := app_ui a ++ head;
                app_role := app_role a |} ->
        con_examenes v a1 = (Ok tt, a2) ->
        realizar_examen env con_examenes a =
        (Ok tt,
         {| app_sent := app_sent a2; app_ui := app_ui a2 ++ tail;
            app_role := app_role a2 |})).
Proof.
  intros req head tail. split.
  - intros r N S J B.
    unfold realizar_examen, abind, call, run_M. cbn [app_sent app_ui app_role].
    rewrite make_request_cases. cbn [sent ui]. fold req. rewrite N.
    apply error_status_false_iff in S. rewrite S, J.
    destruct (String.eqb_spec (text r) EmptyString) as [E|E].
    + cbn. unfold head, tail. rewrite ?app_nil_r. repeat rewrite <- app_assoc. reflexivity.
    + destruct B as [B|(v & D & T)]; [contradiction|]. rewrite D. cbn. rewrite T. cbn.
      unfold head, tail. rewrite ?app_nil_r. repeat rewrite <- app_assoc. reflexivity.
  - intros r v a1 a2 N S J E D T -> C.
    unfold realizar_examen, abind, call, run_M. cbn [app_sent app_ui app_role].
    rewrite make_request_cases. cbn [sent ui]. fold req. rewrite N.
    apply error_status_false_iff in S. rewrite S, J.
    apply String.eqb_neq in E. rewrite E, D. cbn. rewrite T. cbn.
    rewrite app_nil_r, <- app_assoc. cbn [app].
    unfold head in C. rewrite C. cbn.
    unfold tail. repeat rewrite <- app_assoc. reflexivity.
Qed.

Lemma X19_witness :
  let env := local_env [json_reply 200 "OK" "[]"] (NetRaise "x") in
  realizar_examen env (fun _ => aret tt)
    {| app_sent := []; app_ui := []; app_role := Some "student" |} =
  (Ok tt,
   {| app_sent := [mk_request "GET" "http://localhost:5000/examenes"
                     (Some [("Authorization", "Bearer secret")]) None None];
      app_ui := [Call "st.header" [Lit "📝 Realizar Examen"];
                 Call "st.write" [Lit "Selecciona un examen para realizarlo"];
                 Call "st.error" [Lit "❌ Error al obtener la lista de exámenes"];
                 Call "st.info" [Lit "No hay exámenes disponibles."];
                 Call "st.markdown" [Lit "---"]];
      app_role := Some "student" |}).
Proof.
  intros env.
  refine (proj1 (X19_no_exams_is_shown_as_error env (fun _ => aret tt)
                   {| app_sent := []; app_ui := []; app_role := Some "student" |})
            _ eq_refl _ eq_refl _).
  - simpl. lia.
  - right. exists (JArr []). split; reflexivity.
Defined.
